(** * Feature, scaling and prediction contract of the satellite ML scripts

    A shallow embedding of [ml_model/scripts/preprocess.py],
    [ml_model/scripts/inference.py] and
    [ml_model/scripts/backend_integration.py].

    Conventions of the embedding.
    - Python floats are rationals ([Q]); the non-finite floats (nan, inf)
      are outside the model, except for the missing value of a pandas
      column, which is the cell [NaN].
    - A Python dict with string keys is a [gmap string _]; a dict that is
      returned to the HTTP layer and serialised is a JSON object [JObj].
    - An exception is a value of [exn]; a call that may raise returns a
      [result].
    - The numpy global random generator is an explicit state of an abstract
      type, passed through the synthetic data generator.
    - Pickled artifacts on disk are a [gmap] from file name to object. *)

From Stdlib Require Import QArith ZArith List Ascii String Lia.
From stdpp Require Import gmap strings list fin_maps pretty.

Local Open Scope Q_scope.

(** ** Numbers *)

Definition Qltb (x y : Q) : bool := negb (Qle_bool y x).

(** [np.clip(x, lo, hi)] on one finite float. *)
Definition clip (x lo hi : Q) : Q :=
  if Qltb x lo then lo else if Qltb hi x then hi else x.

(** [int(x)]: truncation toward zero. *)
Definition py_int (x : Q) : Z := Z.quot (Qnum x) (Z.pos (Qden x)).

(** [bool(x)] of a number. *)
Definition py_bool (x : Q) : bool := negb (Qeq_bool x 0).

(** Builtin [max] over a non-empty sequence. *)
Definition Qmaxb (x y : Q) : Q := if Qltb x y then y else x.
Definition Qminb (x y : Q) : Q := if Qltb y x then y else x.

(** ** Exceptions and results *)

Inductive exn : Type :=
  | ValueError (msg : string)
  | KeyError (key_repr : string)
  | IndexError (msg : string)
  | AttributeError (msg : string)
  | TypeError (msg : string)
  | NotFittedError (msg : string)
  | BadRequest (msg : string).

(** [repr] of a string key. *)
Definition quote (s : string) : string := "'" +:+ s +:+ "'".

(** [str(e)]; the message of a [KeyError] is the [repr] of the key, which
    the constructor carries. *)
Definition str (e : exn) : string :=
  match e with
  | ValueError m | IndexError m | AttributeError m | TypeError m
  | NotFittedError m | BadRequest m | KeyError m => m
  end.

Inductive result (A : Type) : Type :=
  | Ok (a : A)
  | Raise (e : exn).
Arguments Ok {A} a.
Arguments Raise {A} e.

#[global] Instance result_ret : MRet result := fun A a => Ok a.
#[global] Instance result_bind : MBind result := fun A B k r =>
  match r with
  | Ok a => k a
  | Raise e => Raise e
  end.

(** [try: body  except Exception as e: handler e]. *)
Definition try_except {A : Type} (body : result A) (handler : exn → result A)
  : result A :=
  match body with
  | Ok a => Ok a
  | Raise e => handler e
  end.

Definition is_ok {A : Type} (r : result A) : bool :=
  match r with Ok _ => true | Raise _ => false end.

(** [repr] of a list of strings, as an f-string prints it. *)
Fixpoint repr_items (l : list string) : string :=
  match l with
  | [] => EmptyString
  | [s] => "'" +:+ s +:+ "'"
  | s :: rest => "'" +:+ s +:+ "', " +:+ repr_items rest
  end.
Definition repr_list (l : list string) : string := "[" +:+ repr_items l +:+ "]".

(** ** The scaler *)

(** Modelled from the spec: [sklearn.preprocessing.MinMaxScaler] with
    [feature_range=(0, 1)] is a library object, not code of the scripts.
    Its fitted state and its operations follow section 4.2 of the
    specification: [fit] computes the per-column minimum and maximum of the
    matrix it is given and fails on a matrix with no row, [transform]
    applies [(x - min) / (max - min)] per column (a constant column, on
    which the specification is silent, is divided by 1 as the library does)
    and fails when the column count is not the one of the fit. *)
Record ScalerState : Type := mkScaler {
  data_min : list Q;
  data_max : list Q
}.

Definition n_features_in (s : ScalerState) : nat := length (data_min s).

(** A scaler object: [None] until it is fitted. *)
Definition MinMaxScaler : Type := option ScalerState.

Definition matrix : Type := list (list Q).

Fixpoint col_fold (f : Q → Q → Q) (acc : list Q) (rows : matrix) : list Q :=
  match rows with
  | [] => acc
  | r :: rows' => col_fold f (zip_with f acc r) rows'
  end.

Definition fit (X : matrix) : result ScalerState :=
  match X with
  | [] => Raise (ValueError "Found array with 0 sample(s)")
  | r :: rows =>
      Ok {| data_min := col_fold Qminb r rows; data_max := col_fold Qmaxb r rows |}
  end.

Definition scale_row (s : ScalerState) (r : list Q) : list Q :=
  zip_with (fun x mm =>
              let range := snd mm - fst mm in
              (x - fst mm) / (if Qeq_bool range 0 then 1 else range))
           r (zip (data_min s) (data_max s)).

Definition transform (sc : MinMaxScaler) (X : matrix) : result matrix :=
  match sc with
  | None => Raise (NotFittedError "This MinMaxScaler instance is not fitted yet")
  | Some s =>
      if forallb (fun r => Nat.eqb (length r) (n_features_in s)) X
      then Ok (map (scale_row s) X)
      else Raise (ValueError "X has a different number of features than MinMaxScaler is expecting")
  end.

(** [fit_transform]: the scaler is reset, fitted on [X], then applied to
    [X]; the first component is the scaler object afterwards. *)
Definition fit_transform (sc : MinMaxScaler) (X : matrix)
  : MinMaxScaler * result matrix :=
  match fit X with
  | Ok s => (Some s, transform (Some s) X)
  | Raise e => (None, Raise e)
  end.

(** ** Pickled artifacts and the objects loaded from them *)

(** A fitted estimator is opaque: what the scripts use of it is [predict]
    and [predict_proba] on a matrix, either of which may raise. *)
Record Model : Type := mkModel {
  predict : matrix → result (list Q);
  predict_proba : matrix → result matrix
}.

(** What [joblib.load] returns. *)
Inductive pickled : Type :=
  | PModel (m : Model)
  | PScaler (s : MinMaxScaler).

(** Method calls on a loaded object; Python looks the method up at run
    time. *)
Definition call_transform (o : pickled) (X : matrix) : result matrix :=
  match o with
  | PScaler s => transform s X
  | PModel _ => Raise (AttributeError "object has no attribute 'transform'")
  end.

Definition call_predict (o : pickled) (X : matrix) : result (list Q) :=
  match o with
  | PModel m => predict m X
  | PScaler _ => Raise (AttributeError "'MinMaxScaler' object has no attribute 'predict'")
  end.

Definition call_predict_proba (o : pickled) (X : matrix) : result matrix :=
  match o with
  | PModel m => predict_proba m X
  | PScaler _ => Raise (AttributeError "'MinMaxScaler' object has no attribute 'predict_proba'")
  end.

(** The directory of artifacts: file path to pickled object.  A path that
    is not in the map makes [joblib.load] raise [FileNotFoundError]. *)
Abbreviation filesystem := (gmap string pickled).

(** [os.path.join(d, f)] for a relative [f]. *)
Definition path_join (d f : string) : string :=
  match String.length d with
  | O => f
  | S n =>
      match String.get n d with
      | Some "/"%char => d +:+ f
      | _ => d +:+ "/" +:+ f
      end
  end.

(** [a[i]] on a sequence. *)
Definition getitem {A : Type} (l : list A) (i : nat) : result A :=
  match l !! i with
  | Some x => Ok x
  | None => Raise (IndexError "index out of bounds")
  end.

(** Builtin [max(seq)]. *)
Definition py_max (l : list Q) : result Q :=
  match l with
  | [] => Raise (ValueError "max() arg is an empty sequence")
  | x :: rest => Ok (fold_left Qmaxb rest x)
  end.

(** The object a request carries: a dict of numeric fields, or something
    that is not a dict ([null], a list, a number, ...), named by its Python
    type. *)
Inductive payload : Type :=
  | Dict (d : gmap string Q)
  | NotDict (type_name : string).

(** [features.get(col, dflt)]. *)
Definition features_get (features : payload) (col : string) (dflt : Q) : result Q :=
  match features with
  | Dict d => Ok (default dflt (d !! col))
  | NotDict t => Raise (AttributeError ("'" +:+ t +:+ "' object has no attribute 'get'"))
  end.

(** [X.shape] of a 2-D array, printed. *)
Definition shape (X : matrix) : string :=
  "(" +:+ pretty (length X) +:+ ", " +:+ pretty (length (default [] (head X))) +:+ ")".

(** ** JSON values returned to the HTTP layer *)

#[local] Unset Elimination Schemes.
Inductive json : Type :=
  | JNull
  | JBool (b : bool)
  | JFloat (q : Q)
  | JInt (z : Z)
  | JStr (s : string)
  | JArr (items : list json)
  | JObj (fields : list (string * json)).
#[local] Set Elimination Schemes.

Fixpoint assoc {A : Type} (k : string) (l : list (string * A)) : option A :=
  match l with
  | [] => None
  | (k', v) :: rest => if String.eqb k k' then Some v else assoc k rest
  end.

(** [d[k]] on a dict. *)
Definition json_getitem (d : json) (k : string) : result json :=
  match d with
  | JObj fields =>
      match assoc k fields with
      | Some v => Ok v
      | None => Raise (KeyError (quote k))
      end
  | _ => Raise (TypeError "object is not subscriptable")
  end.

(** Truth value of an object in an [if]. *)
Definition truthy (j : json) : bool :=
  match j with
  | JNull => false
  | JBool b => b
  | JFloat q => py_bool q
  | JInt z => negb (Z.eqb z 0)
  | JStr s => negb (String.eqb s EmptyString)
  | JArr l => negb (Nat.eqb (length l) 0)
  | JObj l => negb (Nat.eqb (length l) 0)
  end.

Definition json_of_dict (d : gmap string Q) : json :=
  JObj (map_to_list (JFloat <$> d)).

(** ** pandas and numpy on columns *)

Record date : Type := mkDate { year : nat; month : nat; day : nat }.

Definition is_leap (y : nat) : bool :=
  (Nat.eqb (y mod 4) 0 && negb (Nat.eqb (y mod 100) 0)) || Nat.eqb (y mod 400) 0.

Definition days_in_month (y m : nat) : nat :=
  match m with
  | 2 => if is_leap y then 29 else 28
  | 4 | 6 | 9 | 11 => 30
  | _ => 31
  end%nat.

Definition next_day (d : date) : date :=
  if Nat.ltb (day d) (days_in_month (year d) (month d))
  then mkDate (year d) (month d) (S (day d))
  else if Nat.ltb (month d) 12
       then mkDate (year d) (S (month d)) 1
       else mkDate (S (year d)) 1 1.

(** [pd.date_range(start, periods=n, freq='D')]. *)
Fixpoint date_range (start : date) (periods : nat) : list date :=
  match periods with
  | O => []
  | S n => start :: date_range (next_day start) n
  end.

(** One cell of a column; [NaN] is the missing value. *)
Inductive cell : Type :=
  | Date (d : date)
  | Float (q : Q)
  | Int (z : Z)
  | NaN.

Definition isna (c : cell) : bool :=
  match c with NaN => true | _ => false end.

(** [series < q], cell-wise; a missing or non-numeric cell compares false. *)
Definition cell_lt (c : cell) (q : Q) : bool :=
  match c with
  | Float x => Qltb x q
  | Int z => Qltb (inject_Z z) q
  | _ => false
  end.

Definition cell_value (c : cell) : option Q :=
  match c with
  | Float x => Some x
  | Int z => Some (inject_Z z)
  | _ => None
  end.

(** A frame: its columns in order, all of one length, rows labelled
    [0 .. n-1]. *)
Definition DataFrame : Type := list (string * list cell).

Definition nrows (df : DataFrame) : nat :=
  match df with
  | [] => 0
  | (_, c) :: _ => length c
  end.

(** [df[name]]; raises [KeyError] for a column the frame lacks. *)
Definition df_getitem (df : DataFrame) (name : string) : result (list cell) :=
  match assoc name df with
  | Some c => Ok c
  | None => Raise (KeyError (quote name))
  end.

(** [df[name]] where the frame was just built with that column. *)
Definition df_col (df : DataFrame) (name : string) : list cell :=
  default [] (assoc name df).

(** [df[name] = col]: replaces the column, or appends it. *)
Fixpoint df_setitem (df : DataFrame) (name : string) (col : list cell) : DataFrame :=
  match df with
  | [] => [(name, col)]
  | (k, c) :: rest =>
      if String.eqb name k then (k, col) :: rest
      else (k, c) :: df_setitem rest name col
  end.

(** [np.roll(a, k)]. *)
Definition roll {A : Type} (a : list A) (k : nat) : list A :=
  let n := length a in
  drop (n - k mod n) a ++ take (n - k mod n) a.

(** [np.diff(a, prepend=p)]. *)
Definition diff_prepend (a : list Q) (p : Q) : list Q :=
  zip_with (fun prev cur => cur - prev) (p :: a) a.

Definition Qsum (l : list Q) : Q := fold_right Qplus 0 l.

(** [series.rolling(window=w, min_periods=m).mean()]: the mean of the
    values present among the last [w] cells, missing when fewer than [m]
    are present. *)
Definition rolling_mean (w m : nat) (s : list cell) : list cell :=
  map (fun j =>
         let window := take (S j - (S j - w)) (drop (S j - w) s) in
         let present := omap cell_value window in
         if Nat.leb m (length present) && negb (Nat.eqb (length present) 0)
         then Float (Qsum present / inject_Z (Z.of_nat (length present)))
         else NaN)
      (seq 0 (length s)).

(** [series.shift(-k)]: row [i] receives the value of row [i + k]. *)
Definition shift_back (k : nat) (s : list cell) : list cell :=
  drop k s ++ replicate (Nat.min k (length s)) NaN.

Definition bool_to_int (b : bool) : cell := Int (if b then 1 else 0)%Z.

(** * preprocess.py *)

Module preprocess.

(** [SatelliteDataPreprocessor]; the [StandardScaler] it also creates
    ([scaler_ndvi]) is never fitted nor read. *)
Record SatelliteDataPreprocessor : Type := mkPreprocessor {
  scaler_features : MinMaxScaler
}.

Definition init : SatelliteDataPreprocessor := {| scaler_features := None |}.

Section Generator.

(** The numpy global generator: [seed] is [np.random.seed], the two draw
    functions give one sample and the next state. *)
Context {rng : Type}.
Variable seed : Z → rng.
Variable random_uniform : Q → Q → rng → Q * rng.
Variable random_normal : Q → Q → rng → Q * rng.

(** A sized draw [np.random.f(..., size)]. *)
Fixpoint draws (size : nat) (draw : rng → Q * rng) (g : rng) : list Q * rng :=
  match size with
  | O => ([], g)
  | S n =>
      let (x, g1) := draw g in
      let (xs, g2) := draws n draw g1 in
      (x :: xs, g2)
  end.

Definition uniform (lo hi : Q) (size : nat) : rng → list Q * rng :=
  draws size (random_uniform lo hi).

Definition normal (mu sigma : Q) (size : nat) : rng → list Q * rng :=
  draws size (random_normal mu sigma).

(** [generate_synthetic_training_data]: takes the state of the global
    generator and returns the frame with the state it leaves. *)
Definition generate_synthetic_training_data (g : rng) (n_samples : nat)
  : DataFrame * rng :=
  let g := seed 42 in
  let dates := date_range (mkDate 2024 1 1) 30 in
  let (ndvi_base, g) := uniform 0.3 0.9 30 g in
  let (noise, g) := normal 0 0.05 30 g in
  let ndvi_noisy := zip_with Qplus ndvi_base noise in
  let ndvi_values := (fun x => clip x 0 1) <$> ndvi_noisy in
  let ndvi_prev := roll ndvi_values 1 in
  let ndvi_change := diff_prepend ndvi_values 0 in
  let (red_band, g) := uniform 0.1 0.4 30 g in
  let (nir_band, g) := uniform 0.3 0.6 30 g in
  let (blue_band, g) := uniform 0.05 0.3 30 g in
  let (green_band, g) := uniform 0.1 0.4 30 g in
  let (cloud_cover, g) := uniform 0 0.3 30 g in
  let (temperature, g) := uniform 15 35 30 g in
  let (humidity, g) := uniform 30 90 30 g in
  let df : DataFrame :=
    [ ("date", Date <$> dates);
      ("ndvi", Float <$> ndvi_values);
      ("ndvi_prev", Float <$> ndvi_prev);
      ("ndvi_change", Float <$> ndvi_change);
      ("red_band", Float <$> red_band);
      ("nir_band", Float <$> nir_band);
      ("blue_band", Float <$> blue_band);
      ("green_band", Float <$> green_band);
      ("cloud_cover", Float <$> cloud_cover);
      ("temperature", Float <$> temperature);
      ("humidity", Float <$> humidity) ] in
  let df := df_setitem df "ndvi_7day_ahead"
              (shift_back 7 (rolling_mean 7 1 (df_col df "ndvi"))) in
  let df := df_setitem df "is_change"
              ((fun c => bool_to_int (cell_lt c (-0.1))) <$> df_col df "ndvi_change") in
  let df := df_setitem df "risk_level"
              (zip_with
                 (fun ndvi change =>
                    if cell_lt ndvi 0.4 then Int 2
                    else if cell_lt ndvi 0.6 || cell_lt change (-0.05) then Int 1
                    else Int 0)
                 (df_col df "ndvi") (df_col df "ndvi_change")) in
  (df, g).

End Generator.

(** *** Feature preparation *)

(** A selection of columns with its row labels, as [df[cols]] and
    [df.loc[idx, col]] give them. *)
Definition labelled (A : Type) : Type := list (nat * A).

Definition index {A : Type} (X : labelled A) : list nat := fst <$> X.

(** [df[feature_cols]]: the rows of the chosen columns. *)
Definition df_select (df : DataFrame) (feature_cols : list string)
  : result (labelled (list cell)) :=
  cols ← mapM (df_getitem df) feature_cols;
  mret (map (fun i => (i, map (fun c => default NaN (c !! i)) cols))
           (seq 0 (nrows df))).

(** [X.dropna()] on rows and on a series. *)
Definition dropna_rows (X : labelled (list cell)) : labelled (list cell) :=
  filter (fun r => forallb (fun c => negb (isna c)) (snd r) = true) X.

Definition dropna_series (y : labelled cell) : labelled cell :=
  filter (fun r => isna (snd r) = false) y.

(** [df.loc[idx, name]]. *)
Definition df_loc (df : DataFrame) (idx : list nat) (name : string)
  : result (labelled cell) :=
  col ← df_getitem df name;
  mapM (fun i => match col !! i with
                 | Some c => Ok (i, c)
                 | None => Raise (KeyError (pretty i))
                 end) idx.

(** [a.intersection(b)] on row labels, and [X.loc[idx]]. *)
Definition intersection (a b : list nat) : list nat :=
  filter (fun i => i ∈ b) a.

Definition loc {A : Type} (X : labelled A) (idx : list nat) : labelled A :=
  filter (fun r => fst r ∈ idx) X.

(** The conversion of a frame to a float matrix that the scaler performs. *)
Definition to_matrix (X : labelled (list cell)) : result matrix :=
  mapM (fun r =>
          mapM (fun c => match cell_value c with
                         | Some q => Ok q
                         | None => Raise (ValueError "could not convert to float")
                         end) (snd r)) X.

(** The selection, cleaning and alignment of the rows, up to the matrix
    that is handed to the scaler. *)
Definition project_features (feature_cols : list string) (target : string)
    (df : DataFrame) : result (matrix * labelled cell) :=
  X ← df_select df feature_cols;
  let X := dropna_rows X in
  y ← df_loc df (index X) target;
  let y := dropna_series y in
  let common_idx := intersection (index X) (index y) in
  let X := loc X common_idx in
  let y := loc y common_idx in
  Xm ← to_matrix X;
  Ok (Xm, y).

(** The body the three [prepare_features_for_*] methods share: they differ
    in [feature_cols] and in the target column only.  The scaler object of
    [self] is fitted again by [fit_transform] on every call. *)
Definition prepare_features (feature_cols : list string) (target : string)
    (self : SatelliteDataPreprocessor) (df : DataFrame)
  : SatelliteDataPreprocessor * result (matrix * list cell * list string) :=
  match project_features feature_cols target df with
  | Raise e => (self, Raise e)
  | Ok (Xm, y) =>
      let (sc, X_scaled) := fit_transform (scaler_features self) Xm in
      ({| scaler_features := sc |},
       match X_scaled with
       | Ok Xs => Ok (Xs, snd <$> y, feature_cols)
       | Raise e => Raise e
       end)
  end.

Definition ndvi_prediction_feature_cols : list string :=
  [ "ndvi_prev"; "ndvi_change"; "red_band"; "nir_band";
    "blue_band"; "green_band"; "cloud_cover"; "temperature"; "humidity" ].

Definition change_detection_feature_cols : list string :=
  [ "ndvi"; "ndvi_prev"; "ndvi_change"; "red_band"; "nir_band";
    "cloud_cover"; "temperature" ].

Definition risk_classification_feature_cols : list string :=
  [ "ndvi"; "ndvi_change"; "red_band"; "nir_band";
    "cloud_cover"; "temperature"; "humidity" ].

Definition prepare_features_for_ndvi_prediction :=
  prepare_features ndvi_prediction_feature_cols "ndvi_7day_ahead".

Definition prepare_features_for_change_detection :=
  prepare_features change_detection_feature_cols "is_change".

Definition prepare_features_for_risk_classification :=
  prepare_features risk_classification_feature_cols "risk_level".

(** [save_scaler(path)]: [joblib.dump] writes the scaler object of [self]
    as it is at that moment. *)
Definition save_scaler (self : SatelliteDataPreprocessor) (path : string)
    (fs : filesystem) : filesystem :=
  <[path := PScaler (scaler_features self)]> fs.

Definition default_scaler_path : string := "../models/scaler.pkl".

(** The three preparations in the order in which both the script body of
    preprocess.py and [main] of train_model.py run them; an exception in
    one of them ends the run. *)
Definition prepare_all (self : SatelliteDataPreprocessor) (df : DataFrame)
  : SatelliteDataPreprocessor * result unit :=
  let (self, r) := prepare_features_for_ndvi_prediction self df in
  match r with
  | Raise e => (self, Raise e)
  | Ok _ =>
      let (self, r) := prepare_features_for_change_detection self df in
      match r with
      | Raise e => (self, Raise e)
      | Ok _ =>
          let (self, r) := prepare_features_for_risk_classification self df in
          match r with
          | Raise e => (self, Raise e)
          | Ok _ => (self, Ok ())
          end
      end
  end.

End preprocess.

(** * inference.py *)

Module inference.

Record ModelInference : Type := mkModelInference {
  models_dir : string;
  models : gmap string pickled;
  scaler : option pickled
}.

Definition set_model (name : string) (o : pickled) (self : ModelInference)
  : ModelInference :=
  {| models_dir := models_dir self;
     models := <[name := o]> (models self);
     scaler := scaler self |}.

Definition set_scaler (o : pickled) (self : ModelInference) : ModelInference :=
  {| models_dir := models_dir self;
     models := models self;
     scaler := Some o |}.

(** [load_models]: four independent [try ... except FileNotFoundError]
    blocks; a missing file leaves the entry unset and prints a warning. *)
Definition load_models (fs : filesystem) (self : ModelInference) : ModelInference :=
  let self :=
    match fs !! path_join (models_dir self) "ndvi_predictor.pkl" with
    | Some o => set_model "ndvi_predictor" o self
    | None => self
    end in
  let self :=
    match fs !! path_join (models_dir self) "change_detector.pkl" with
    | Some o => set_model "change_detector" o self
    | None => self
    end in
  let self :=
    match fs !! path_join (models_dir self) "risk_classifier.pkl" with
    | Some o => set_model "risk_classifier" o self
    | None => self
    end in
  match fs !! path_join (models_dir self) "scaler.pkl" with
  | Some o => set_scaler o self
  | None => self
  end.

(** [ModelInference.__init__]. *)
Definition init (fs : filesystem) (models_dir : string) : ModelInference :=
  load_models fs {| models_dir := models_dir; models := ∅; scaler := None |}.

Definition default_models_dir : string := "../models".

Definition predict_ndvi_feature_cols : list string :=
  [ "ndvi_prev"; "ndvi_change"; "red_band"; "nir_band";
    "cloud_cover"; "temperature"; "humidity" ].

Definition predict_change_detection_feature_cols : list string :=
  [ "ndvi"; "ndvi_prev"; "ndvi_change"; "red_band"; "nir_band";
    "cloud_cover"; "temperature" ].

Definition predict_risk_level_feature_cols : list string :=
  [ "ndvi"; "ndvi_change"; "red_band"; "nir_band";
    "cloud_cover"; "temperature"; "humidity" ].

(** [[features.get(col, dflt) for col in feature_cols]]; the default is
    written [0.0] in [predict_ndvi] and [0] in the other two, the same
    number once the row is a float array. *)
Definition build_row (features : payload) (feature_cols : list string) (dflt : Q)
  : result (list Q) :=
  mapM (fun col => features_get features col dflt) feature_cols.

Definition predict_ndvi (self : ModelInference) (features : payload) : result Q :=
  match models self !! "ndvi_predictor" with
  | None => Raise (ValueError "NDVI predictor model not loaded")
  | Some model =>
  match scaler self with
  | None => Raise (ValueError "Scaler not loaded")
  | Some sc =>
      let feature_cols := predict_ndvi_feature_cols in
      row ← build_row features feature_cols 0;
      let X := [row] in
      try_except
        (X_scaled ← call_transform sc X;
         preds ← call_predict model X_scaled;
         prediction ← getitem preds 0;
         mret (clip prediction 0 1))
        (fun e => Raise (ValueError
           ("Prediction failed: " +:+ str e +:+ ". Input shape: " +:+ shape X
            +:+ ", Features: " +:+ repr_list feature_cols)))
  end end.

Record change_detection : Type := mkChange {
  is_change : bool;
  confidence : Q
}.

Definition predict_change_detection (self : ModelInference) (features : payload)
  : result change_detection :=
  match models self !! "change_detector" with
  | None => Raise (ValueError "Change detector model not loaded")
  | Some model =>
  match scaler self with
  | None => Raise (ValueError "Scaler not loaded")
  | Some sc =>
      let feature_cols := predict_change_detection_feature_cols in
      row ← build_row features feature_cols 0;
      let X := [row] in
      try_except
        (X_scaled ← call_transform sc X;
         preds ← call_predict model X_scaled;
         prediction ← getitem preds 0;
         probas ← call_predict_proba model X_scaled;
         probability ← getitem probas 0;
         positive ← getitem probability 1;
         mret {| is_change := py_bool prediction; confidence := positive |})
        (fun e => Raise (ValueError
           ("Change detection prediction failed: " +:+ str e +:+ ". Input shape: "
            +:+ shape X +:+ ", Features: " +:+ repr_list feature_cols)))
  end end.

Record risk_assessment : Type := mkRisk {
  risk_level : Z;
  risk_label : string;
  risk_confidence : Q
}.

(** The dict literal [{0: 'Low', 1: 'Medium', 2: 'High'}]. *)
Definition risk_levels : gmap Z string :=
  <[0%Z := "Low"]> (<[1%Z := "Medium"]> (<[2%Z := "High"]> ∅)).

Definition risk_levels_getitem (k : Z) : result string :=
  match risk_levels !! k with
  | Some label => Ok label
  | None => Raise (KeyError (pretty k))
  end.

Definition predict_risk_level (self : ModelInference) (features : payload)
  : result risk_assessment :=
  match models self !! "risk_classifier" with
  | None => Raise (ValueError "Risk classifier model not loaded")
  | Some model =>
  match scaler self with
  | None => Raise (ValueError "Scaler not loaded")
  | Some sc =>
      let feature_cols := predict_risk_level_feature_cols in
      row ← build_row features feature_cols 0;
      let X := [row] in
      try_except
        (X_scaled ← call_transform sc X;
         preds ← call_predict model X_scaled;
         prediction ← getitem preds 0;
         probas ← call_predict_proba model X_scaled;
         probabilities ← getitem probas 0;
         label ← risk_levels_getitem (py_int prediction);
         top ← py_max probabilities;
         mret {| risk_level := py_int prediction;
                 risk_label := label;
                 risk_confidence := top |})
        (fun e => Raise (ValueError
           ("Risk level prediction failed: " +:+ str e +:+ ". Input shape: "
            +:+ shape X +:+ ", Features: " +:+ repr_list feature_cols)))
  end end.

Record all_predictions : Type := mkAll {
  ndvi_forecast : Q;
  change_detection_result : change_detection;
  risk_assessment_result : risk_assessment
}.

(** [predict_all]: the dict literal evaluates its three values in order;
    the first exception leaves the function. *)
Definition predict_all (self : ModelInference) (features : payload)
  : result all_predictions :=
  ndvi ← predict_ndvi self features;
  change ← predict_change_detection self features;
  risk ← predict_risk_level self features;
  mret {| ndvi_forecast := ndvi;
          change_detection_result := change;
          risk_assessment_result := risk |}.

Definition json_of_change (c : change_detection) : json :=
  JObj [ ("is_change", JBool (is_change c)); ("confidence", JFloat (confidence c)) ].

Definition json_of_risk (r : risk_assessment) : json :=
  JObj [ ("risk_level", JInt (risk_level r));
         ("risk_label", JStr (risk_label r));
         ("confidence", JFloat (risk_confidence r)) ].

Definition json_of_predictions (p : all_predictions) : json :=
  JObj [ ("ndvi_forecast", JFloat (ndvi_forecast p));
         ("change_detection", json_of_change (change_detection_result p));
         ("risk_assessment", json_of_risk (risk_assessment_result p)) ].

Record ModelAPI : Type := mkModelAPI {
  inference : ModelInference
}.

(** [ModelAPI.process_request]; [now] is the printed
    [pd.Timestamp.now().isoformat()] of the call. *)
Definition process_request (self : ModelAPI) (now : string) (request_data : payload)
  : json :=
  match request_data with
  | NotDict _ => JObj [ ("error", JStr "Invalid request format") ]
  | Dict d =>
      match predict_all (inference self) request_data with
      | Ok predictions =>
          JObj [ ("success", JBool true);
                 ("timestamp", JStr now);
                 ("predictions", json_of_predictions predictions);
                 ("input_features", json_of_dict d) ]
      | Raise e =>
          JObj [ ("success", JBool false);
                 ("error", JStr (str e)) ]
      end
  end.

End inference.

(** * backend_integration.py *)

Module backend_integration.

(** A Flask request: [request.get_json()] returns the parsed body or
    raises (a body that is not JSON). *)
Record Request : Type := mkRequest {
  get_json : result payload
}.

(** What a view function returns: [jsonify(body), status]. *)
Definition response : Type := json * Z.

Definition error_response (e : exn) : response :=
  (JObj [ ("success", JBool false); ("error", JStr (str e)) ], 400%Z).

Definition predict_ndvi (model_api : inference.ModelAPI) (request : Request)
  : response :=
  match (data ← get_json request;
         inference.predict_ndvi (inference.inference model_api) data) with
  | Ok prediction =>
      (JObj [ ("success", JBool true);
              ("ndvi_forecast", JFloat prediction);
              ("unit", JStr "normalized (0-1)");
              ("interpretation", JStr "Higher values indicate healthier vegetation") ],
       200%Z)
  | Raise e => error_response e
  end.

Definition predict_change (model_api : inference.ModelAPI) (request : Request)
  : response :=
  match (data ← get_json request;
         inference.predict_change_detection (inference.inference model_api) data) with
  | Ok prediction =>
      (JObj [ ("success", JBool true);
              ("change_detected", JBool (inference.is_change prediction));
              ("confidence", JFloat (inference.confidence prediction));
              ("severity",
               JStr (if inference.is_change prediction
                        && Qltb 0.8 (inference.confidence prediction)
                     then "high" else "low")) ],
       200%Z)
  | Raise e => error_response e
  end.

Definition predict_risk (model_api : inference.ModelAPI) (request : Request)
  : response :=
  match (data ← get_json request;
         inference.predict_risk_level (inference.inference model_api) data) with
  | Ok prediction =>
      (JObj [ ("success", JBool true);
              ("risk_level", JInt (inference.risk_level prediction));
              ("risk_label", JStr (inference.risk_label prediction));
              ("confidence", JFloat (inference.risk_confidence prediction));
              ("action_required",
               JStr (if Z.eqb (inference.risk_level prediction) 2 then "high"
                     else if Z.eqb (inference.risk_level prediction) 1 then "moderate"
                     else "none")) ],
       200%Z)
  | Raise e => error_response e
  end.

Definition predict_all (model_api : inference.ModelAPI) (now : string)
    (request : Request) : response :=
  match (data ← get_json request;
         let result := inference.process_request model_api now data in
         success ← json_getitem result "success";
         mret (if truthy success then (result, 200%Z) else (result, 400%Z))) with
  | Ok r => r
  | Raise e => error_response e
  end.

(** The module-level [model_api = ModelAPI()], built once when the server
    starts, from the artifacts found in the default directory. *)
Definition model_api (fs : filesystem) : inference.ModelAPI :=
  {| inference.inference := inference.init fs inference.default_models_dir |}.

End backend_integration.

(** * Concrete inputs

    A small linear congruential generator standing for numpy's, fitted
    estimators that answer a constant, and the sample request of the
    script body of inference.py.  They are used to run the definitions
    above on examples. *)

Module example.

Definition lcg_seed (s : Z) : Z := s.

Definition lcg_next (s : Z) : Z := ((1103515245 * s + 12345) mod 2147483648)%Z.

Definition lcg_uniform (lo hi : Q) (s : Z) : Q * Z :=
  let s' := lcg_next s in
  (Qred (lo + (hi - lo) * (inject_Z ((s' / 65536) mod 1000) / 1000)), s').

Definition lcg_normal (mu sigma : Q) (s : Z) : Q * Z :=
  let s' := lcg_next s in
  (Qred (mu + sigma * (inject_Z ((s' / 65536) mod 2001 - 1000) / 500)), s').

Definition generate : Z → nat → DataFrame * Z :=
  preprocess.generate_synthetic_training_data lcg_seed lcg_uniform lcg_normal.

(** The frame of a training run, [generate_synthetic_training_data(n_samples=1000)]. *)
Definition df : DataFrame := fst (generate 0%Z 1000%nat).

(** An estimator that answers [p] (and the class probabilities [probs])
    for every row. *)
Definition constant_model (p : Q) (probs : list Q) : Model :=
  {| predict := fun X => Ok (map (fun _ => p) X);
     predict_proba := fun X => Ok (map (fun _ => probs) X) |}.

(** A scaler fitted on seven columns. *)
Definition scaler7 : MinMaxScaler :=
  Some {| data_min := [0; -1; 0; 0; 0; 0; 0];
          data_max := [1; 1; 1; 1; 1; 50; 100] |}.

Definition sample_features : gmap string Q :=
  list_to_map
    [ ("ndvi_prev", 0.7); ("ndvi_change", -0.05); ("red_band", 0.25);
      ("nir_band", 0.50); ("blue_band", 0.15); ("green_band", 0.30);
      ("cloud_cover", 0.1); ("temperature", 25.5); ("humidity", 65.0);
      ("ndvi", 0.65) ].

(** All four artifacts on disk; the regressor answers above the NDVI range. *)
Definition fs_full : filesystem :=
  list_to_map
    [ ("../models/ndvi_predictor.pkl", PModel (constant_model 1.7 []));
      ("../models/change_detector.pkl", PModel (constant_model 1 [0.1; 0.9]));
      ("../models/risk_classifier.pkl", PModel (constant_model 2 [0.1; 0.2; 0.7]));
      ("../models/scaler.pkl", PScaler scaler7) ].

(** The same directory without the risk classifier. *)
Definition fs_no_risk : filesystem := delete "../models/risk_classifier.pkl" fs_full.



(** The server started on each of the two directories. *)
Definition api_full : inference.ModelAPI := backend_integration.model_api fs_full.
Definition api_no_risk : inference.ModelAPI := backend_integration.model_api fs_no_risk.

End example.

(** * train_model.py *)

Module train_model.

(** [ModelTrainer]: the fitted estimators and their metrics, by name. *)
Record ModelTrainer : Type := mkModelTrainer {
  models : gmap string Model;
  metrics : gmap string json
}.

(** [ModelTrainer.__init__]. *)
Definition init : ModelTrainer := {| models := ∅; metrics := ∅ |}.

(** The f-string ['../models/{name}.pkl']. *)
Definition model_path (name : string) : string :=
  "../models/" +:+ name +:+ ".pkl".

(** [save_all_models]: one [joblib.dump] per entry of [self.models]; the
    second component is what [json.dump] writes to metrics.json, a text
    file that is not among the pickled artifacts. *)
Definition save_all_models (self : ModelTrainer) (fs : filesystem)
  : filesystem * gmap string json :=
  (map_fold (fun name model fs => <[model_path name := PModel model]> fs)
            fs (models self),
   metrics self).

End train_model.

(** * More concrete inputs *)

Module example_more.



(** The directory of [example.fs_full] without the scaler. *)
Definition fs_no_scaler : filesystem :=
  delete "../models/scaler.pkl" example.fs_full.

(** A trainer holding the three estimators of [example.fs_full]. *)
Definition trainer : train_model.ModelTrainer :=
  {| train_model.models :=
       list_to_map
         [ ("ndvi_predictor", example.constant_model 1.7 []);
           ("change_detector", example.constant_model 1 [0.1; 0.9]);
           ("risk_classifier", example.constant_model 2 [0.1; 0.2; 0.7]) ];
     train_model.metrics := ∅ |}.


Definition df_no_risk_level : DataFrame :=
  filter (fun c => c.1 ≠ "risk_level") example.df.


(** The fitted state of [example.scaler7]. *)
Definition scaler7_state : ScalerState :=
  {| data_min := [0; -1; 0; 0; 0; 0; 0];
     data_max := [1; 1; 1; 1; 1; 50; 100] |}.

End example_more.

(** * Specification-side notions *)

(** The feature dictionary completed for a field list: every listed field
    that [d] lacks is given the value 0.  This is not a function of the
    scripts; it names the "complete input" an incomplete one is compared
    with. *)
Definition fill_defaults (cols : list string) (d : gmap string Q) : gmap string Q :=
  foldr (fun c m => <[c := default 0 (d !! c)]> m) d cols.

(** The uniform error body [{success: false, error: msg}]. *)
Definition error_envelope (msg : string) : json :=
  JObj [ ("success", JBool false); ("error", JStr msg) ].

(** * Properties *)

(** ** Numbers *)

Lemma Qltb_lt (x y : Q) : Qltb x y = true ↔ x < y.
Proof.
  unfold Qltb. rewrite negb_true_iff. split.
  - intros H. apply Qnot_le_lt. intros Hle.
    apply Qle_bool_iff in Hle. congruence.
  - intros H. destruct (Qle_bool y x) eqn:E; [|done].
    apply Qle_bool_iff in E. exfalso. by apply (Qlt_not_le x y).
Qed.

Lemma Qltb_ge (x y : Q) : Qltb x y = false ↔ y <= x.
Proof.
  unfold Qltb. rewrite negb_false_iff. apply Qle_bool_iff.
Qed.

Lemma clip_bounds (x lo hi : Q) : lo <= hi → lo <= clip x lo hi ∧ clip x lo hi <= hi.
Proof.
  intros Hlh. unfold clip.
  destruct (Qltb x lo) eqn:E1.
  - split; [apply Qle_refl | done].
  - apply Qltb_ge in E1. destruct (Qltb hi x) eqn:E2.
    + split; [done | apply Qle_refl].
    + apply Qltb_ge in E2. done.
Qed.

(** ** The synthetic data generator *)

Section GeneratorFacts.

Context {rng : Type}.
Variable seed : Z → rng.
Variable random_uniform : Q → Q → rng → Q * rng.
Variable random_normal : Q → Q → rng → Q * rng.

Local Abbreviation generate :=
  (preprocess.generate_synthetic_training_data seed random_uniform random_normal).

Lemma draws_length (size : nat) (draw : rng → Q * rng) (g : rng) :
  length (preprocess.draws size draw g).1 = size.
Proof.
  revert g. induction size as [|n IH]; intros g; simpl; [done|].
  destruct (draw g) as [x g1]. specialize (IH g1).
  destruct (preprocess.draws n draw g1) as [xs g2]. simpl in *. by rewrite IH.
Qed.

Lemma uniform_length (lo hi : Q) (size : nat) (g : rng) :
  length (preprocess.uniform random_uniform lo hi size g).1 = size.
Proof. apply draws_length. Qed.

Lemma normal_length (mu sigma : Q) (size : nat) (g : rng) :
  length (preprocess.normal random_normal mu sigma size g).1 = size.
Proof. apply draws_length. Qed.

Lemma roll_length {A : Type} (a : list A) (k : nat) : length (roll a k) = length a.
Proof.
  unfold roll. rewrite length_app, length_drop, length_take. lia.
Qed.

Lemma diff_prepend_length (a : list Q) (p : Q) :
  length (diff_prepend a p) = length a.
Proof.
  unfold diff_prepend. apply length_zip_with_r. simpl. lia.
Qed.

Lemma rolling_mean_length (w m : nat) (s : list cell) :
  length (rolling_mean w m s) = length s.
Proof. unfold rolling_mean. by rewrite length_map, length_seq. Qed.

Lemma shift_back_length (k : nat) (s : list cell) :
  length (shift_back k s) = length s.
Proof.
  unfold shift_back. rewrite length_app, length_drop, length_replicate. lia.
Qed.

(** The frame the generator returns, column by column. *)
Lemma generate_columns (g : rng) (n_samples : nat) :
  ∃ ndvi_values red nir blue green cloud temp hum : list Q,
    length ndvi_values = 30%nat ∧ length red = 30%nat ∧ length nir = 30%nat ∧
    length blue = 30%nat ∧ length green = 30%nat ∧ length cloud = 30%nat ∧
    length temp = 30%nat ∧ length hum = 30%nat ∧
    (generate g n_samples).1 =
      [ ("date", Date <$> date_range (mkDate 2024 1 1) 30);
        ("ndvi", Float <$> ndvi_values);
        ("ndvi_prev", Float <$> roll ndvi_values 1);
        ("ndvi_change", Float <$> diff_prepend ndvi_values 0);
        ("red_band", Float <$> red);
        ("nir_band", Float <$> nir);
        ("blue_band", Float <$> blue);
        ("green_band", Float <$> green);
        ("cloud_cover", Float <$> cloud);
        ("temperature", Float <$> temp);
        ("humidity", Float <$> hum);
        ("ndvi_7day_ahead",
         shift_back 7 (rolling_mean 7 1 (Float <$> ndvi_values)));
        ("is_change",
         (fun c => bool_to_int (cell_lt c (-0.1)))
           <$> (Float <$> diff_prepend ndvi_values 0));
        ("risk_level",
         zip_with
           (fun ndvi change =>
              if cell_lt ndvi 0.4 then Int 2
              else if cell_lt ndvi 0.6 || cell_lt change (-0.05) then Int 1
              else Int 0)
           (Float <$> ndvi_values) (Float <$> diff_prepend ndvi_values 0)) ].
Proof.
  unfold generate, preprocess.generate_synthetic_training_data.
  destruct (preprocess.uniform random_uniform 0.3 0.9 30 (seed 42))
    as [base g1] eqn:E1.
  destruct (preprocess.normal random_normal 0 0.05 30 g1) as [noise g2] eqn:E2.
  destruct (preprocess.uniform random_uniform 0.1 0.4 30 g2) as [red g3] eqn:E3.
  destruct (preprocess.uniform random_uniform 0.3 0.6 30 g3) as [nir g4] eqn:E4.
  destruct (preprocess.uniform random_uniform 0.05 0.3 30 g4) as [blue g5] eqn:E5.
  destruct (preprocess.uniform random_uniform 0.1 0.4 30 g5) as [green g6] eqn:E6.
  destruct (preprocess.uniform random_uniform 0 0.3 30 g6) as [cloud g7] eqn:E7.
  destruct (preprocess.uniform random_uniform 15 35 30 g7) as [temp g8] eqn:E8.
  destruct (preprocess.uniform random_uniform 30 90 30 g8) as [hum g9] eqn:E9.
  exists ((fun x => clip x 0 1) <$> zip_with Qplus base noise),
    red, nir, blue, green, cloud, temp, hum.
  pose proof (uniform_length 0.3 0.9 30 (seed 42)) as L1.
  pose proof (normal_length 0 0.05 30 g1) as L2.
  pose proof (uniform_length 0.1 0.4 30 g2) as L3.
  pose proof (uniform_length 0.3 0.6 30 g3) as L4.
  pose proof (uniform_length 0.05 0.3 30 g4) as L5.
  pose proof (uniform_length 0.1 0.4 30 g5) as L6.
  pose proof (uniform_length 0 0.3 30 g6) as L7.
  pose proof (uniform_length 15 35 30 g7) as L8.
  pose proof (uniform_length 30 90 30 g8) as L9.
  rewrite E1 in L1. rewrite E2 in L2. rewrite E3 in L3. rewrite E4 in L4.
  rewrite E5 in L5. rewrite E6 in L6. rewrite E7 in L7. rewrite E8 in L8.
  rewrite E9 in L9. simpl in L1, L2, L3, L4, L5, L6, L7, L8, L9.
  repeat split; try done.
  rewrite length_fmap, length_zip_with. lia.
Qed.

Lemma date_range_january :
  date_range (mkDate 2024 1 1) 30 = (fun d => mkDate 2024 1 d) <$> seq 1 30.
Proof. reflexivity. Qed.

(** C10. The generator ignores [n_samples]: whatever its value (and
    whatever the state of the random generator), the frame has exactly 30
    rows, every column has 30 cells, the rows are dated 2024-01-01 to
    2024-01-30, and the frame is the one returned for any other
    [n_samples]; the row count is [n_samples] only when that is 30. *)
Theorem generator_always_30_rows (g : rng) (n_samples : nat) :
  nrows (generate g n_samples).1 = 30%nat ∧
  Forall (fun c => length c.2 = 30%nat) (generate g n_samples).1 ∧
  df_col (generate g n_samples).1 "date"
    = Date <$> ((fun d => mkDate 2024 1 d) <$> seq 1 30) ∧
  (generate g n_samples).1 = (generate g 0%nat).1 ∧
  (nrows (generate g n_samples).1 = n_samples ↔ n_samples = 30%nat).
Proof.
  assert ((generate g n_samples).1 = (generate g 0%nat).1) as Hsame
    by reflexivity.
  destruct (generate_columns g n_samples)
    as (v & red & nir & blue & green & cloud & temp & hum
        & Hv & Hred & Hnir & Hblue & Hgreen & Hcloud & Htemp & Hhum & Hdf).
  assert (nrows (generate g n_samples).1 = 30%nat) as Hrows
    by (rewrite Hdf; reflexivity).
  split_and!; [exact Hrows | | | exact Hsame | lia]; rewrite Hdf; [|reflexivity].
  repeat (apply Forall_cons; split; [simpl|]); try apply Forall_nil;
    rewrite ?length_fmap, ?shift_back_length, ?rolling_mean_length,
      ?length_zip_with, ?roll_length, ?diff_prepend_length, ?length_fmap,
      ?roll_length, ?diff_prepend_length;
    try lia.
Qed.

(** C9. Generation is deterministic: the generator reseeds numpy with 42
    on entry, so two calls with the same sample count return the same
    frame, cell for cell and column for column, whatever the generator
    state each call starts from; in particular a second call made right
    after the first returns the frame of the first. *)
Theorem generator_deterministic (g1 g2 : rng) (n_samples : nat) :
  (generate g1 n_samples).1 = (generate g2 n_samples).1 ∧
  (generate (generate g1 n_samples).2 n_samples).1 = (generate g1 n_samples).1.
Proof. split; reflexivity. Qed.

(** C8. In every generated frame, row [i] has [is_change = 1] exactly when
    its [ndvi_change] is below -0.1 (and 0 otherwise), and its
    [risk_level] is 2 when [ndvi < 0.4], else 1 when [ndvi < 0.6] or
    [ndvi_change < -0.05], else 0. *)
Theorem generated_labels (g : rng) (n_samples i : nat) :
  (i < 30)%nat →
  ∃ (ndvi change : Q) (is_change risk_level : Z),
    df_col (generate g n_samples).1 "ndvi" !! i = Some (Float ndvi) ∧
    df_col (generate g n_samples).1 "ndvi_change" !! i = Some (Float change) ∧
    df_col (generate g n_samples).1 "is_change" !! i = Some (Int is_change) ∧
    df_col (generate g n_samples).1 "risk_level" !! i = Some (Int risk_level) ∧
    (is_change = 1%Z ↔ change < -0.1) ∧
    (is_change = 0%Z ↔ ¬ change < -0.1) ∧
    (ndvi < 0.4 → risk_level = 2%Z) ∧
    (¬ ndvi < 0.4 → ndvi < 0.6 ∨ change < -0.05 → risk_level = 1%Z) ∧
    (¬ ndvi < 0.4 → ¬ (ndvi < 0.6 ∨ change < -0.05) → risk_level = 0%Z).
Proof.
  intros Hi.
  destruct (generate_columns g n_samples)
    as (v & red & nir & blue & green & cloud & temp & hum
        & Hv & _ & _ & _ & _ & _ & _ & _ & ->).
  destruct (lookup_lt_is_Some_2 v i) as [ndvi Hndvi]; [lia|].
  destruct (lookup_lt_is_Some_2 (diff_prepend v 0) i) as [change Hchange];
    [rewrite diff_prepend_length; lia|].
  exists ndvi, change,
    (if Qltb change (-0.1) then 1 else 0)%Z,
    (if Qltb ndvi 0.4 then 2
     else if Qltb ndvi 0.6 || Qltb change (-0.05) then 1 else 0)%Z.
  cbn [df_col assoc String.eqb Ascii.eqb Bool.eqb default from_option id].
  split_and!.
  - by rewrite list_lookup_fmap, Hndvi.
  - by rewrite list_lookup_fmap, Hchange.
  - by rewrite !list_lookup_fmap, Hchange.
  - rewrite lookup_zip_with, !list_lookup_fmap, Hndvi, Hchange. simpl.
    by repeat case_match.
  - destruct (Qltb change (-0.1)) eqn:E.
    + apply Qltb_lt in E. by split.
    + split; [done|]. intros H. apply Qltb_lt in H. congruence.
  - destruct (Qltb change (-0.1)) eqn:E.
    + apply Qltb_lt in E. by split.
    + split; [|done]. intros _ H. apply Qltb_lt in H. congruence.
  - intros H. apply Qltb_lt in H. by rewrite H.
  - intros H1 H2.
    destruct (Qltb ndvi 0.4) eqn:E1; [by apply Qltb_lt in E1|].
    destruct H2 as [H2|H2]; apply Qltb_lt in H2; rewrite H2; [done|].
    by rewrite orb_true_r.
  - intros H1 H2.
    destruct (Qltb ndvi 0.4) eqn:E1; [by apply Qltb_lt in E1|].
    destruct (Qltb ndvi 0.6) eqn:E2; [apply Qltb_lt in E2; tauto|].
    destruct (Qltb change (-0.05)) eqn:E3; [apply Qltb_lt in E3; tauto|].
    done.
Qed.

End GeneratorFacts.

(** The labels of row 3 of the example frame. *)
Lemma generated_labels_witness :
  (3 < 30)%nat ∧
  ∃ (ndvi change : Q) (is_change risk_level : Z),
    df_col example.df "ndvi" !! 3%nat = Some (Float ndvi) ∧
    df_col example.df "ndvi_change" !! 3%nat = Some (Float change) ∧
    df_col example.df "is_change" !! 3%nat = Some (Int is_change) ∧
    df_col example.df "risk_level" !! 3%nat = Some (Int risk_level) ∧
    (is_change = 1%Z ↔ change < -0.1) ∧
    (is_change = 0%Z ↔ ¬ change < -0.1) ∧
    (ndvi < 0.4 → risk_level = 2%Z) ∧
    (¬ ndvi < 0.4 → ndvi < 0.6 ∨ change < -0.05 → risk_level = 1%Z) ∧
    (¬ ndvi < 0.4 → ¬ (ndvi < 0.6 ∨ change < -0.05) → risk_level = 0%Z).
Proof.
  split; [lia|].
  apply (generated_labels example.lcg_seed example.lcg_uniform
           example.lcg_normal 0%Z 1000%nat 3%nat).
  lia.
Defined.

(** ** Inference *)

(** Unfolds the error monad and splits on every call that may raise. *)
Ltac result_cases H :=
  unfold try_except, mbind, result_bind, mret, result_ret in H;
  repeat case_match; simplify_eq.

Lemma build_row_dict (d : gmap string Q) (cols : list string) (dflt : Q) :
  inference.build_row (Dict d) cols dflt
  = Ok ((fun c => default dflt (d !! c)) <$> cols).
Proof.
  unfold inference.build_row. induction cols as [|c cols IH]; [done|].
  cbn [mapM]. rewrite IH. reflexivity.
Qed.

Lemma fill_defaults_lookup (cols : list string) (d : gmap string Q) (c : string) :
  fill_defaults cols d !! c
  = if decide (c ∈ cols) then Some (default 0 (d !! c)) else d !! c.
Proof.
  induction cols as [|c' cols IH]; simpl.
  - destruct (decide (c ∈ [])) as [H|H]; [by apply elem_of_nil in H | done].
  - destruct (decide (c' = c)) as [->|Hne].
    + rewrite lookup_insert_eq.
      destruct (decide (c ∈ c :: cols)) as [H|H]; [done|].
      exfalso. apply H. left.
    + rewrite lookup_insert_ne by done. rewrite IH.
      destruct (decide (c ∈ cols)) as [H|H];
        destruct (decide (c ∈ c' :: cols)) as [H'|H']; try done.
      * exfalso. apply H'. by right.
      * exfalso. apply elem_of_cons in H' as [?|?]; [congruence | done].
Qed.

Lemma fill_defaults_complete (cols : list string) (d : gmap string Q) (c : string) :
  c ∈ cols → fill_defaults cols d !! c = Some (default 0 (d !! c)).
Proof. intros H. rewrite fill_defaults_lookup. by case_decide. Qed.

Lemma fill_defaults_present (cols : list string) (d : gmap string Q)
    (c : string) (v : Q) :
  d !! c = Some v → fill_defaults cols d !! c = Some v.
Proof.
  intros H. rewrite fill_defaults_lookup, H. by case_decide.
Qed.


Lemma risk_levels_lookup (k : Z) (label : string) :
  inference.risk_levels !! k = Some label →
  (k = 0%Z ∧ label = "Low") ∨ (k = 1%Z ∧ label = "Medium")
  ∨ (k = 2%Z ∧ label = "High").
Proof.
  unfold inference.risk_levels. rewrite !lookup_insert, lookup_empty.
  repeat case_decide; naive_solver.
Qed.


(** C5. Whenever [predict_risk_level] returns a result, its [risk_level]
    is 0, 1 or 2 and its [risk_label] is the image of the level under
    [{0: 'Low', 1: 'Medium', 2: 'High'}]. *)
Theorem predict_risk_level_label
    (self : inference.ModelInference) (features : payload)
    (r : inference.risk_assessment) :
  inference.predict_risk_level self features = Ok r →
  inference.risk_levels !! inference.risk_level r = Some (inference.risk_label r) ∧
  ((inference.risk_level r = 0%Z ∧ inference.risk_label r = "Low")
   ∨ (inference.risk_level r = 1%Z ∧ inference.risk_label r = "Medium")
   ∨ (inference.risk_level r = 2%Z ∧ inference.risk_label r = "High")).
Proof.
  intros H. unfold inference.predict_risk_level in H. result_cases H.
  simpl. unfold inference.risk_levels_getitem in *. case_match; simplify_eq.
  split; [done|]. by apply risk_levels_lookup.
Qed.


(** A classifier that answers class 2 is reported as High. *)
Lemma predict_risk_level_label_witness :
  inference.predict_risk_level (inference.inference example.api_full)
    (Dict example.sample_features)
  = Ok {| inference.risk_level := 2; inference.risk_label := "High";
          inference.risk_confidence := 0.7 |}
  ∧ inference.risk_levels !! 2%Z = Some "High".
Proof.
  split; [vm_compute; reflexivity|].
  apply (predict_risk_level_label
           (inference.inference example.api_full)
           (Dict example.sample_features)
           {| inference.risk_level := 2; inference.risk_label := "High";
              inference.risk_confidence := 0.7 |}).
  vm_compute; reflexivity.
Defined.


(** With a scaler fitted on seven columns and an estimator that answers,
    the NDVI prediction succeeds on every dictionary, the empty one
    included. *)
Lemma predict_ndvi_succeeds (self : inference.ModelInference) (m : Model)
    (s : ScalerState) (d : gmap string Q) (p : Q) :
  inference.models self !! "ndvi_predictor" = Some (PModel m) →
  inference.scaler self = Some (PScaler (Some s)) →
  n_features_in s = 7%nat →
  (∀ X, predict m X = Ok [p]) →
  inference.predict_ndvi self (Dict d) = Ok (clip p 0 1).
Proof.
  intros Hm Hs Hn Hp. unfold inference.predict_ndvi.
  rewrite Hm, Hs, build_row_dict. simpl. rewrite Hn. simpl.
  by rewrite Hp.
Qed.

(** ** The combined call *)

Lemma predict_all_raises (self : inference.ModelInference) (p : payload) :
  is_ok (inference.predict_ndvi self p)
  && is_ok (inference.predict_change_detection self p)
  && is_ok (inference.predict_risk_level self p) = false →
  ∃ e, inference.predict_all self p = Raise e ∧
       (inference.predict_ndvi self p = Raise e
        ∨ inference.predict_change_detection self p = Raise e
        ∨ inference.predict_risk_level self p = Raise e).
Proof.
  unfold inference.predict_all. intros H.
  destruct (inference.predict_ndvi self p) as [n|e1]; [|by eauto].
  destruct (inference.predict_change_detection self p) as [c|e2]; [|by eauto].
  destruct (inference.predict_risk_level self p) as [r|e3]; [done|by eauto].
Qed.

(** C3. The combined call returns no partial result.  On a feature
    dictionary for which one of the three sub-predictions raises,
    [process_request] returns the error envelope with the message of a
    failing sub-prediction and nothing else, and /predict/all answers it
    with status 400; when the three succeed, [process_request] returns
    [success: true] with the three results nested under [predictions],
    and /predict/all answers it with status 200. *)
Theorem predict_all_no_partial_results
    (api : inference.ModelAPI) (now : string) (d : gmap string Q) :
  (is_ok (inference.predict_ndvi (inference.inference api) (Dict d))
   && is_ok (inference.predict_change_detection (inference.inference api) (Dict d))
   && is_ok (inference.predict_risk_level (inference.inference api) (Dict d)) = false →
   ∃ e,
     (inference.predict_ndvi (inference.inference api) (Dict d) = Raise e
      ∨ inference.predict_change_detection (inference.inference api) (Dict d) = Raise e
      ∨ inference.predict_risk_level (inference.inference api) (Dict d) = Raise e) ∧
     inference.predict_all (inference.inference api) (Dict d) = Raise e ∧
     inference.process_request api now (Dict d) = error_envelope (str e) ∧
     backend_integration.predict_all api now
       (backend_integration.mkRequest (Ok (Dict d)))
     = (error_envelope (str e), 400%Z)) ∧
  (∀ n c r,
     inference.predict_ndvi (inference.inference api) (Dict d) = Ok n →
     inference.predict_change_detection (inference.inference api) (Dict d) = Ok c →
     inference.predict_risk_level (inference.inference api) (Dict d) = Ok r →
     inference.process_request api now (Dict d)
     = JObj [ ("success", JBool true);
              ("timestamp", JStr now);
              ("predictions",
               JObj [ ("ndvi_forecast", JFloat n);
                      ("change_detection", inference.json_of_change c);
                      ("risk_assessment", inference.json_of_risk r) ]);
              ("input_features", json_of_dict d) ] ∧
     backend_integration.predict_all api now
       (backend_integration.mkRequest (Ok (Dict d)))
     = (inference.process_request api now (Dict d), 200%Z)).
Proof.
  split.
  - intros H. destruct (predict_all_raises _ _ H) as (e & Hall & Hsub).
    exists e.
    assert (inference.process_request api now (Dict d) = error_envelope (str e))
      as Hreq by (unfold inference.process_request; by rewrite Hall).
    split_and!; try done.
    unfold backend_integration.predict_all.
    cbn [backend_integration.get_json mbind result_bind]. by rewrite Hreq.
  - intros n c r Hn Hc Hr.
    assert (inference.predict_all (inference.inference api) (Dict d)
            = Ok {| inference.ndvi_forecast := n;
                    inference.change_detection_result := c;
                    inference.risk_assessment_result := r |}) as Hall
      by (unfold inference.predict_all; by rewrite Hn, Hc, Hr).
    unfold backend_integration.predict_all, inference.process_request.
    cbn [backend_integration.get_json mbind result_bind]. by rewrite Hall.
Qed.

(** The sample request on a server without the risk classifier, and on a
    server with all artifacts. *)
Lemma predict_all_no_partial_results_witness :
  (backend_integration.predict_all example.api_no_risk "2024-01-01T00:00:00"
     (backend_integration.mkRequest (Ok (Dict example.sample_features)))).2
  = 400%Z
  ∧ backend_integration.predict_all example.api_full "2024-01-01T00:00:00"
      (backend_integration.mkRequest (Ok (Dict example.sample_features)))
    = (inference.process_request example.api_full "2024-01-01T00:00:00"
         (Dict example.sample_features), 200%Z).
Proof.
  split.
  - destruct (proj1 (predict_all_no_partial_results example.api_no_risk
                       "2024-01-01T00:00:00" example.sample_features))
      as (e & _ & _ & _ & ->); [vm_compute; reflexivity | reflexivity].
  - apply (proj2 (predict_all_no_partial_results example.api_full
                    "2024-01-01T00:00:00" example.sample_features)
             1 {| inference.is_change := true; inference.confidence := 0.9 |}
             {| inference.risk_level := 2; inference.risk_label := "High";
                inference.risk_confidence := 0.7 |});
      vm_compute; reflexivity.
Defined.

(** A body that is not a dict does not reach the predictors:
    [process_request] answers without a [success] key, and reading that
    key in the view raises, which the view turns into the error envelope
    and status 400. *)
Lemma process_request_rejects_non_dict
    (api : inference.ModelAPI) (now : string) (type_name : string) :
  inference.process_request api now (NotDict type_name)
  = JObj [ ("error", JStr "Invalid request format") ] ∧
  backend_integration.predict_all api now
    (backend_integration.mkRequest (Ok (NotDict type_name)))
  = (error_envelope "'success'", 400%Z).
Proof. split; reflexivity. Qed.

(** A body that does not parse is answered with status 400 as well. *)
Lemma predict_all_bad_body
    (api : inference.ModelAPI) (now : string) (e : exn) :
  backend_integration.predict_all api now (backend_integration.mkRequest (Raise e))
  = (error_envelope (str e), 400%Z).
Proof. reflexivity. Qed.

(** ** Loading the artifacts *)

(** Names the paths that [load_models] joins under the default directory. *)
Ltac default_paths :=
  repeat match goal with
  | |- context [path_join inference.default_models_dir ?f] =>
      let p := eval vm_compute in (path_join inference.default_models_dir f) in
      change (path_join inference.default_models_dir f) with p
  end.

(** One [try ... except FileNotFoundError] block of [load_models]. *)
Ltac load_step fs path :=
  cbn [inference.inference inference.set_model inference.models_dir];
  default_paths;
  destruct (fs !! path).

(** What the server holds after start-up, artifact by artifact. *)
Lemma model_api_loaded (fs : filesystem) :
  inference.models (inference.inference (backend_integration.model_api fs))
    !! "ndvi_predictor" = fs !! "../models/ndvi_predictor.pkl" ∧
  inference.models (inference.inference (backend_integration.model_api fs))
    !! "change_detector" = fs !! "../models/change_detector.pkl" ∧
  inference.models (inference.inference (backend_integration.model_api fs))
    !! "risk_classifier" = fs !! "../models/risk_classifier.pkl" ∧
  inference.scaler (inference.inference (backend_integration.model_api fs))
    = fs !! "../models/scaler.pkl".
Proof.
  unfold backend_integration.model_api, inference.init, inference.load_models.
  load_step fs "../models/ndvi_predictor.pkl";
    load_step fs "../models/change_detector.pkl";
    load_step fs "../models/risk_classifier.pkl";
    load_step fs "../models/scaler.pkl";
    cbn [inference.inference inference.set_model inference.set_scaler
         inference.models inference.scaler];
    split_and!; by simplify_map_eq.
Qed.




(** ** Field lists at training and at inference *)

(** C1. The NDVI field list of the Feature Builder is not the one of
    [predict_ndvi]: training selects nine columns, [blue_band] and
    [green_band] among them, and returns that list, while inference builds
    a row of seven fields.  The two other tasks use one list on both
    sides. *)
Theorem ndvi_feature_lists_differ :
  match (preprocess.prepare_features_for_ndvi_prediction preprocess.init example.df).2 with
  | Ok (X, _, feature_cols) =>
      feature_cols
      = [ "ndvi_prev"; "ndvi_change"; "red_band"; "nir_band"; "blue_band";
          "green_band"; "cloud_cover"; "temperature"; "humidity" ]
      ∧ forallb (fun r => Nat.eqb (length r) 9) X = true
  | Raise _ => False
  end ∧
  inference.predict_ndvi_feature_cols
  = [ "ndvi_prev"; "ndvi_change"; "red_band"; "nir_band";
      "cloud_cover"; "temperature"; "humidity" ] ∧
  inference.build_row (Dict example.sample_features)
    inference.predict_ndvi_feature_cols 0
  = Ok [0.7; -0.05; 0.25; 0.50; 0.1; 25.5; 65.0] ∧
  preprocess.ndvi_prediction_feature_cols ≠ inference.predict_ndvi_feature_cols ∧
  preprocess.change_detection_feature_cols
  = inference.predict_change_detection_feature_cols ∧
  preprocess.risk_classification_feature_cols
  = inference.predict_risk_level_feature_cols.
Proof.
  split_and!.
  - by vm_compute.
  - reflexivity.
  - by vm_compute.
  - discriminate.
  - reflexivity.
  - reflexivity.
Qed.

(** ** The scaler across a training run *)





(** ** More on the synthetic data generator *)

Section GeneratorRows.

Context {rng : Type}.
Variable seed : Z → rng.
Variable random_uniform : Q → Q → rng → Q * rng.
Variable random_normal : Q → Q → rng → Q * rng.

Local Abbreviation generate :=
  (preprocess.generate_synthetic_training_data seed random_uniform random_normal).

(** The NDVI column is a clipped list. *)
Lemma generate_ndvi_clipped (g : rng) (n_samples : nat) :
  ∃ w : list Q,
    df_col (generate g n_samples).1 "ndvi"
    = Float <$> ((fun x => clip x 0 1) <$> w).
Proof.
  unfold preprocess.generate_synthetic_training_data.
  destruct (preprocess.uniform random_uniform 0.3 0.9 30 (seed 42)) as [base g1].
  destruct (preprocess.normal random_normal 0 0.05 30 g1) as [noise g2].
  destruct (preprocess.uniform random_uniform 0.1 0.4 30 g2) as [red g3].
  destruct (preprocess.uniform random_uniform 0.3 0.6 30 g3) as [nir g4].
  destruct (preprocess.uniform random_uniform 0.05 0.3 30 g4) as [blue g5].
  destruct (preprocess.uniform random_uniform 0.1 0.4 30 g5) as [green g6].
  destruct (preprocess.uniform random_uniform 0 0.3 30 g6) as [cloud g7].
  destruct (preprocess.uniform random_uniform 15 35 30 g7) as [temp g8].
  destruct (preprocess.uniform random_uniform 30 90 30 g8) as [hum g9].
  by exists (zip_with Qplus base noise).
Qed.

#[local] Instance Float_inj : Inj (=) (=) Float.
Proof. intros x y H. by injection H. Qed.

Lemma roll_one_lookup_0 {A : Type} (a : list A) (n : nat) :
  length a = S n → roll a 1 !! 0%nat = a !! n.
Proof.
  intros H. unfold roll. rewrite H.
  destruct n as [|n].
  - simpl. destruct a as [|x [|y a]]; try done.
  - replace (1 mod S (S n))%nat with 1%nat by (symmetry; apply Nat.mod_small; lia).
    replace (S (S n) - 1)%nat with (S n) by lia.
    rewrite lookup_app_l by (rewrite length_drop; lia).
    rewrite lookup_drop. f_equal. lia.
Qed.

Lemma roll_one_lookup_S {A : Type} (a : list A) (i : nat) :
  (S i < length a)%nat → roll a 1 !! S i = a !! i.
Proof.
  intros H. unfold roll.
  destruct (length a) as [|[|n]] eqn:E; [lia | lia |].
  replace (1 mod S (S n))%nat with 1%nat by (symmetry; apply Nat.mod_small; lia).
  replace (S (S n) - 1)%nat with (S n) by lia.
  rewrite lookup_app_r by (rewrite length_drop; lia).
  rewrite length_drop, E, lookup_take_lt by lia. f_equal. lia.
Qed.

Lemma diff_prepend_lookup_0 (a : list Q) (p x : Q) :
  a !! 0%nat = Some x → diff_prepend a p !! 0%nat = Some (x - p).
Proof. destruct a; [done|]. simpl. by intros [= ->]. Qed.

Lemma diff_prepend_lookup_S (a : list Q) (p x y : Q) (i : nat) :
  a !! i = Some x → a !! S i = Some y →
  diff_prepend a p !! S i = Some (y - x).
Proof.
  intros Hx Hy. unfold diff_prepend. rewrite lookup_zip_with. simpl.
  by rewrite Hx, Hy.
Qed.

(** X2. In a generated frame, on every row after the first, [ndvi_prev]
    is the [ndvi] of the row before and [ndvi_change] is [ndvi] minus that
    value.  Row 0 is different: [np.roll] wraps, so its [ndvi_prev] is the
    [ndvi] of the last row (row 29), while its [ndvi_change] is its own
    [ndvi] minus the prepended 0. *)
Theorem generated_previous_and_change (g : rng) (n_samples i : nat) :
  (i < 29)%nat →
  ∃ first last a b : Q,
    df_col (generate g n_samples).1 "ndvi" !! 0%nat = Some (Float first) ∧
    df_col (generate g n_samples).1 "ndvi" !! 29%nat = Some (Float last) ∧
    df_col (generate g n_samples).1 "ndvi_prev" !! 0%nat = Some (Float last) ∧
    df_col (generate g n_samples).1 "ndvi_change" !! 0%nat
      = Some (Float (first - 0)) ∧
    df_col (generate g n_samples).1 "ndvi" !! i = Some (Float a) ∧
    df_col (generate g n_samples).1 "ndvi" !! S i = Some (Float b) ∧
    df_col (generate g n_samples).1 "ndvi_prev" !! S i = Some (Float a) ∧
    df_col (generate g n_samples).1 "ndvi_change" !! S i = Some (Float (b - a)).
Proof.
  intros Hi.
  destruct (generate_columns seed random_uniform random_normal g n_samples)
    as (v & red & nir & blue & green & cloud & temp & hum
        & Hv & _ & _ & _ & _ & _ & _ & _ & ->).
  destruct (lookup_lt_is_Some_2 v 0) as [first Hfirst]; [lia|].
  destruct (lookup_lt_is_Some_2 v 29) as [last Hlast]; [lia|].
  destruct (lookup_lt_is_Some_2 v i) as [a Ha]; [lia|].
  destruct (lookup_lt_is_Some_2 v (S i)) as [b Hb]; [lia|].
  exists first, last, a, b.
  cbn [df_col assoc String.eqb Ascii.eqb Bool.eqb default from_option id].
  rewrite !list_lookup_fmap, Hfirst, Hlast, Ha, Hb.
  rewrite (roll_one_lookup_0 v 29 Hv), Hlast.
  rewrite (roll_one_lookup_S v i) by lia. rewrite Ha.
  rewrite (diff_prepend_lookup_0 v 0 first Hfirst).
  rewrite (diff_prepend_lookup_S v 0 a b i Ha Hb).
  by split_and!.
Qed.

Lemma Qsum_bounds (l : list Q) :
  Forall (fun x => 0 <= x ∧ x <= 1) l →
  0 <= Qsum l ∧ Qsum l <= inject_Z (Z.of_nat (length l)).
Proof.
  induction 1 as [|x l [Hx0 Hx1] _ [IH0 IH1]]; [done|].
  cbn [Qsum fold_right length]. fold (Qsum l). split.
  - replace 0 with (0 + 0) by reflexivity. by apply Qplus_le_compat.
  - rewrite Nat2Z.inj_succ. unfold Z.succ. rewrite inject_Z_plus.
    rewrite (Qplus_comm (inject_Z _)). by apply Qplus_le_compat.
Qed.

Lemma omap_cell_value_Float (l : list Q) : omap cell_value (Float <$> l) = l.
Proof. induction l as [|x l IH]; [done|]. simpl. f_equal. exact IH. Qed.

(** Row [j] of the weekly rolling mean, once seven days are available. *)
Lemma rolling_mean_week_lookup (v : list Q) (j : nat) :
  (6 <= j < length v)%nat →
  rolling_mean 7 1 (Float <$> v) !! j
  = Some (Float (Qsum (take 7 (drop (j - 6) v)) / 7)).
Proof.
  intros Hj. unfold rolling_mean.
  change (map ?f ?l) with (f <$> l).
  rewrite list_lookup_fmap, length_fmap, lookup_seq_lt by lia. simpl.
  replace (S j - (j - 6))%nat with 7%nat by lia.
  rewrite <- fmap_drop, <- fmap_take, omap_cell_value_Float.
  assert (length (take 7 (drop (j - 6) v)) = 7%nat) as ->
    by (rewrite length_take, length_drop; lia).
  reflexivity.
Qed.

(** The weekly rolling mean moved seven rows back: the mean of the seven
    rows that follow, and nothing for the last seven rows. *)
Lemma shift_back_rolling_week (v : list Q) :
  length v = 30%nat →
  shift_back 7 (rolling_mean 7 1 (Float <$> v))
  = ((fun i => Float (Qsum (take 7 (drop (S i) v)) / 7)) <$> seq 0 23)
    ++ replicate 7 NaN.
Proof.
  intros Hv. unfold shift_back. rewrite rolling_mean_length, length_fmap, Hv.
  f_equal. apply list_eq. intros i.
  rewrite lookup_drop, list_lookup_fmap.
  destruct (decide (i < 23)%nat) as [Hi|Hi].
  - rewrite rolling_mean_week_lookup by lia.
    rewrite lookup_seq_lt by lia. simpl.
    by replace (7 + i - 6)%nat with (S i) by lia.
  - rewrite lookup_seq_ge by lia. simpl.
    apply lookup_ge_None_2. rewrite rolling_mean_length, length_fmap. lia.
Qed.

(** The NDVI column and the target column of a generated frame. *)
Lemma generate_ndvi_and_target (g : rng) (n_samples : nat) :
  ∃ v : list Q,
    length v = 30%nat ∧
    Forall (fun x => 0 <= x ∧ x <= 1) v ∧
    df_col (generate g n_samples).1 "ndvi" = Float <$> v ∧
    df_col (generate g n_samples).1 "ndvi_7day_ahead"
    = ((fun i => Float (Qsum (take 7 (drop (S i) v)) / 7)) <$> seq 0 23)
      ++ replicate 7 NaN.
Proof.
  destruct (generate_ndvi_clipped g n_samples) as [w Hw].
  destruct (generate_columns seed random_uniform random_normal g n_samples)
    as (v & red & nir & blue & green & cloud & temp & hum
        & Hv & _ & _ & _ & _ & _ & _ & _ & Hdf).
  rewrite Hdf in Hw |- *. clear Hdf.
  cbn [df_col assoc String.eqb Ascii.eqb Bool.eqb default from_option id] in *.
  apply (inj (fmap Float)) in Hw.
  exists v. split_and!; [done | | done | by apply shift_back_rolling_week].
  rewrite Hw. apply Forall_fmap, Forall_forall. intros x _.
  by apply clip_bounds.
Qed.

(** X1. Every cell of the [ndvi] column of a generated frame is a float
    within [0, 1]: the noisy values are clipped before they are stored. *)
Theorem generated_ndvi_in_unit_interval (g : rng) (n_samples : nat) :
  Forall (fun c => ∃ v : Q, c = Float v ∧ 0 <= v ∧ v <= 1)
         (df_col (generate g n_samples).1 "ndvi").
Proof.
  destruct (generate_ndvi_and_target g n_samples) as (v & _ & Hv & -> & _).
  apply Forall_fmap. eapply Forall_impl; [exact Hv|].
  intros x Hx. simpl. by exists x.
Qed.

(** X3. The target [ndvi_7day_ahead] of row [i] of a generated frame is
    the mean of the [ndvi] of the seven rows that follow, rows [i+1] to
    [i+7]; the last seven rows have no target.  Every target present lies
    within [0, 1]. *)
Theorem generated_target_is_next_week_mean (g : rng) (n_samples : nat) :
  ∃ v : list Q,
    length v = 30%nat ∧
    df_col (generate g n_samples).1 "ndvi" = Float <$> v ∧
    df_col (generate g n_samples).1 "ndvi_7day_ahead"
    = ((fun i => Float (Qsum (take 7 (drop (S i) v)) / 7)) <$> seq 0 23)
      ++ replicate 7 NaN ∧
    Forall (fun c => c = NaN ∨ ∃ t : Q, c = Float t ∧ 0 <= t ∧ t <= 1)
           (df_col (generate g n_samples).1 "ndvi_7day_ahead").
Proof.
  destruct (generate_ndvi_and_target g n_samples) as (v & Hlen & Hv & Hn & Ht).
  exists v. split_and!; try done.
  rewrite Ht. apply Forall_app. split.
  - apply Forall_fmap, Forall_forall. intros i Hi. simpl. right.
    apply elem_of_seq in Hi.
    eexists. split; [reflexivity|].
    assert (length (take 7 (drop (S i) v)) = 7%nat) as Hl
      by (rewrite length_take, length_drop; lia).
    destruct (Qsum_bounds (take 7 (drop (S i) v))) as [H0 H1];
      [by apply Forall_take, Forall_drop|].
    rewrite Hl in H1. split.
    + apply Qle_shift_div_l; [done|]. by rewrite Qmult_0_l.
    + apply Qle_shift_div_r; [done|]. by rewrite Qmult_1_l.
  - apply Forall_replicate. by left.
Qed.

(** X4. A row of a generated frame that is labelled as a change
    ([is_change = 1]) is never labelled low risk: its [risk_level] is 1
    or 2. *)
Theorem generated_change_is_never_low_risk (g : rng) (n_samples i : nat) :
  df_col (generate g n_samples).1 "is_change" !! i = Some (Int 1) →
  df_col (generate g n_samples).1 "risk_level" !! i = Some (Int 1)
  ∨ df_col (generate g n_samples).1 "risk_level" !! i = Some (Int 2).
Proof.
  destruct (generate_columns seed random_uniform random_normal g n_samples)
    as (v & red & nir & blue & green & cloud & temp & hum
        & Hv & _ & _ & _ & _ & _ & _ & _ & ->).
  cbn [df_col assoc String.eqb Ascii.eqb Bool.eqb default from_option id].
  rewrite lookup_zip_with, !list_lookup_fmap.
  destruct (diff_prepend v 0 !! i) as [change|] eqn:Hc; [|done].
  destruct (lookup_lt_is_Some_2 v i) as [ndvi Hndvi].
  { apply lookup_lt_Some in Hc. by rewrite diff_prepend_length in Hc. }
  rewrite Hndvi. simpl. unfold bool_to_int.
  destruct (Qltb change (-0.1)) eqn:E; [|done]. intros _.
  apply Qltb_lt in E.
  assert (Qltb change (-0.05) = true) as ->.
  { apply Qltb_lt. eapply Qlt_trans; [exact E | done]. }
  rewrite orb_true_r. destruct (Qltb ndvi 0.4); [by right | by left].
Qed.

End GeneratorRows.

(** ** Feature preparation *)

Lemma mapM_result_Forall2 {A B : Type} (f : A → result B) (l : list A) (k : list B) :
  mapM f l = Ok k ↔ Forall2 (fun x y => f x = Ok y) l k.
Proof.
  revert k. induction l as [|x l IH]; intros k; cbn [mapM].
  - split; [by intros [= <-] | by inversion 1].
  - destruct (f x) as [y|e] eqn:Hx; cbn [mbind result_bind].
    + destruct (mapM f l) as [k'|e] eqn:Hl; cbn [mbind result_bind mret result_ret].
      * split.
        -- intros [= <-]. constructor; [done|]. by apply IH.
        -- inversion 1 as [|? y' ? k2 Hy Hk]; subst.
           rewrite Hx in Hy. injection Hy as <-.
           apply IH in Hk. by injection Hk as <-.
      * split; [done|]. inversion 1 as [|? y' ? k2 Hy Hk]; subst.
        by apply IH in Hk.
    + split; [done|]. inversion 1 as [|? y' ? k2 Hy Hk]; subst. congruence.
Qed.

Lemma mapM_result_ok {A B : Type} (f : A → result B) (g : A → B) (l : list A) :
  (∀ x, x ∈ l → f x = Ok (g x)) → mapM f l = Ok (g <$> l).
Proof.
  intros H. apply mapM_result_Forall2, Forall2_fmap_r, Forall_Forall2_diag.
  by apply Forall_forall.
Qed.

Lemma filter_all {A : Type} (P : A → Prop) `{∀ x, Decision (P x)} (l : list A) :
  Forall P l → filter P l = l.
Proof.
  induction 1 as [|x l Hx _ IH]; [done|].
  by rewrite filter_cons_True, IH.
Qed.

Lemma filter_none {A : Type} (P : A → Prop) `{∀ x, Decision (P x)} (l : list A) :
  Forall (fun x => ¬ P x) l → filter P l = [].
Proof.
  induction 1 as [|x l Hx _ IH]; [done|].
  by rewrite filter_cons_False.
Qed.

Lemma fst_filter {A B : Type} (P : A → Prop) `{∀ x, Decision (P x)}
    (l : list (A * B)) :
  (filter (fun r => P r.1) l).*1 = filter P l.*1.
Proof.
  induction l as [|[a b] l IH]; [done|].
  rewrite fmap_cons. simpl fst.
  destruct (decide (P a)).
  - rewrite !filter_cons_True by done. rewrite fmap_cons. simpl. by rewrite IH.
  - by rewrite !filter_cons_False.
Qed.

Lemma fst_filter_elem_of {B : Type} (k : list nat) (l : list (nat * B)) :
  (filter (fun r => r.1 ∈ k) l).*1 = filter (.∈ k) l.*1.
Proof. exact (fst_filter (.∈ k) l). Qed.

Lemma filter_ext_elem_of {A : Type} (P Q : A → Prop)
    `{∀ x, Decision (P x)} `{∀ x, Decision (Q x)} (l : list A) :
  (∀ x, x ∈ l → P x ↔ Q x) → filter P l = filter Q l.
Proof.
  induction l as [|x l IH]; intros HPQ; [done|].
  rewrite !filter_cons.
  rewrite IH by (intros y Hy; apply HPQ; by right).
  destruct (decide (P x)) as [HP|HP], (decide (Q x)) as [HQ|HQ]; try done.
  - exfalso. apply HQ, HPQ; [left | done].
  - exfalso. apply HP, HPQ; [left | done].
Qed.

(** Selecting from a duplicate-free list the members of one of its
    sublists gives that sublist back. *)
Lemma filter_elem_of_sublist {A : Type} `{EqDecision A} (k l : list A) :
  NoDup l → sublist k l → filter (.∈ k) l = k.
Proof.
  intros Hl Hs. induction Hs as [|x k l Hs IH|x k l Hs IH].
  - done.
  - apply NoDup_cons in Hl as [Hx Hl].
    rewrite filter_cons_True by left. f_equal.
    transitivity (filter (.∈ k) l); [|by apply IH].
    apply filter_ext_elem_of. intros y Hy. split.
    + intros [->|?]%elem_of_cons; done.
    + by right.
  - apply NoDup_cons in Hl as [Hx Hl].
    rewrite filter_cons_False; [by apply IH|].
    intros Hk. apply Hx. by eapply elem_of_sublist.
Qed.

Lemma df_getitem_Ok (df : DataFrame) (name : string) (col : list cell) :
  df_getitem df name = Ok col ↔ assoc name df = Some col.
Proof.
  unfold df_getitem. destruct (assoc name df); split; congruence.
Qed.

(** The rows [df[feature_cols]] has before any is dropped. *)
Lemma df_select_inv (df : DataFrame) (feature_cols : list string)
    (X : preprocess.labelled (list cell)) :
  preprocess.df_select df feature_cols = Ok X →
  ∃ cs : list (list cell),
    Forall2 (fun c col => assoc c df = Some col) feature_cols cs ∧
    X = (fun i => (i, (fun c => default NaN (c !! i)) <$> cs)) <$> seq 0 (nrows df).
Proof.
  unfold preprocess.df_select.
  destruct (mapM (df_getitem df) feature_cols) as [cs|e] eqn:Hcs; [|done].
  cbn [mbind result_bind mret result_ret]. intros [= <-].
  exists cs. split; [|done].
  apply mapM_result_Forall2 in Hcs.
  eapply Forall2_impl; [exact Hcs|]. intros c col. apply df_getitem_Ok.
Qed.

Lemma df_loc_inv (df : DataFrame) (idx : list nat) (name : string)
    (y : preprocess.labelled cell) :
  preprocess.df_loc df idx name = Ok y →
  ∃ col, assoc name df = Some col ∧ y.*1 = idx ∧
         Forall (fun r => col !! r.1 = Some r.2) y.
Proof.
  unfold preprocess.df_loc.
  destruct (df_getitem df name) as [col|e] eqn:Hcol; [|done].
  cbn [mbind result_bind]. intros Hy. exists col.
  split; [by apply df_getitem_Ok|].
  apply mapM_result_Forall2 in Hy.
  induction Hy as [|i r idx y Hr _ [IH1 IH2]]; [done|].
  destruct (col !! i) as [c|] eqn:Hc; [|done]. injection Hr as <-.
  split; [cbn; by f_equal | by constructor].
Qed.

Lemma to_matrix_inv (X : preprocess.labelled (list cell)) (Xm : matrix) :
  preprocess.to_matrix X = Ok Xm →
  Forall2 (fun r m => Forall2 (fun c q => cell_value c = Some q) r.2 m) X Xm.
Proof.
  unfold preprocess.to_matrix. intros H. apply mapM_result_Forall2 in H.
  eapply Forall2_impl; [exact H|]. intros r m Hm. simpl in Hm.
  apply mapM_result_Forall2 in Hm.
  eapply Forall2_impl; [exact Hm|]. intros c q Hc. simpl in Hc.
  by destruct (cell_value c); simplify_eq.
Qed.

(** What [project_features] returns, when it returns: the rows kept are
    rows of the selection, their labels are the labels of the targets
    kept, and no target is missing. *)
Lemma project_features_inv (feature_cols : list string) (target : string)
    (df : DataFrame) (Xm : matrix) (y : preprocess.labelled cell) :
  preprocess.project_features feature_cols target df = Ok (Xm, y) →
  ∃ (cs : list (list cell)) (tcol : list cell)
    (X : preprocess.labelled (list cell)),
    Forall2 (fun c col => assoc c df = Some col) feature_cols cs ∧
    assoc target df = Some tcol ∧
    sublist X ((fun i => (i, (fun c => default NaN (c !! i)) <$> cs))
                 <$> seq 0 (nrows df)) ∧
    Forall (fun r => Forall (fun c => isna c = false) r.2) X ∧
    preprocess.to_matrix X = Ok Xm ∧
    X.*1 = y.*1 ∧
    Forall (fun r => tcol !! r.1 = Some r.2 ∧ isna r.2 = false) y.
Proof.
  unfold preprocess.project_features.
  destruct (preprocess.df_select df feature_cols) as [X0|e] eqn:HX0; [|done].
  cbn [mbind result_bind].
  destruct (preprocess.df_loc df _ target) as [y0|e] eqn:Hy0; [|done].
  cbn [mbind result_bind].
  destruct (preprocess.to_matrix _) as [Xm'|e] eqn:HXm; [|done].
  cbn [mbind result_bind]. intros [= <- <-].
  apply df_select_inv in HX0 as (cs & Hcs & ->).
  apply df_loc_inv in Hy0 as (tcol & Htcol & Hidx & Hy0).
  set (rows := (fun i => (i, (fun c => default NaN (c !! i)) <$> cs))
                 <$> seq 0 (nrows df)) in *.
  set (X1 := preprocess.dropna_rows rows) in *.
  set (y1 := preprocess.dropna_series y0) in *.
  unfold preprocess.index in *.
  assert (NoDup X1.*1) as Hnd.
  { eapply sublist_NoDup; [|apply fmap_sublist, sublist_filter].
    unfold rows. rewrite <- list_fmap_compose.
    replace (fst ∘ _ <$> seq 0 (nrows df)) with (seq 0 (nrows df))
      by (symmetry; apply list_fmap_id).
    apply NoDup_seq. }
  assert (sublist y1.*1 X1.*1) as Hsub.
  { rewrite <- Hidx. apply fmap_sublist, sublist_filter. }
  assert (preprocess.intersection X1.*1 y1.*1 = y1.*1) as Hcommon
    by (by apply filter_elem_of_sublist).
  rewrite Hcommon in HXm |- *.
  exists cs, tcol, (preprocess.loc X1 y1.*1).
  split_and!; try done.
  - etransitivity; apply sublist_filter.
  - apply Forall_forall. intros r Hr.
    apply list_elem_of_filter in Hr as [_ Hr].
    apply list_elem_of_filter in Hr as [Hr _].
    apply Forall_forall. intros c Hc.
    rewrite forallb_forall in Hr. apply list_elem_of_In in Hc.
    specialize (Hr c Hc). by destruct (isna c).
  - unfold preprocess.loc.
    transitivity (filter (.∈ y1.*1) X1.*1);
      [apply fst_filter_elem_of|].
    rewrite (filter_elem_of_sublist _ _ Hnd Hsub). symmetry.
    transitivity (filter (.∈ y1.*1) y1.*1);
      [apply fst_filter_elem_of|].
    apply filter_all.
    apply Forall_forall. by intros i Hi.
  - unfold preprocess.loc. apply Forall_forall. intros r Hr.
    apply list_elem_of_filter in Hr as [_ Hr].
    apply list_elem_of_filter in Hr as [Hna Hr].
    split; [|done]. rewrite Forall_forall in Hy0. by apply Hy0.
Qed.

Lemma col_fold_length (f : Q → Q → Q) (acc : list Q) (rows : matrix) (n : nat) :
  length acc = n → Forall (fun r => length r = n) rows →
  length (col_fold f acc rows) = n.
Proof.
  intros Hacc Hrows. revert acc Hacc.
  induction Hrows as [|r rows Hr _ IH]; intros acc Hacc; [done|].
  simpl. apply IH. rewrite length_zip_with. lia.
Qed.



Lemma project_features_shape (feature_cols : list string) (target : string)
    (df : DataFrame) (Xm : matrix) (y : preprocess.labelled cell) :
  preprocess.project_features feature_cols target df = Ok (Xm, y) →
  length Xm = length y ∧
  Forall (fun r => length r = length feature_cols) Xm ∧
  Forall (fun c => isna c = false) y.*2.
Proof.
  intros H.
  apply project_features_inv in H
    as (cs & tcol & X & Hcs & _ & Hsub & _ & HXm & Hidx & Hy).
  apply to_matrix_inv in HXm. split_and!.
  - rewrite <- (Forall2_length _ _ _ HXm).
    rewrite <- (length_fmap fst X), Hidx. apply length_fmap.
  - apply Forall_forall. intros m Hm.
    apply list_elem_of_lookup in Hm as [i Hm].
    destruct (Forall2_lookup_r _ _ _ _ _ HXm Hm) as (r & Hr & Hrm).
    rewrite <- (Forall2_length _ _ _ Hrm).
    assert (r ∈ X) as Hin by (by eapply list_elem_of_lookup_2).
    eapply elem_of_sublist in Hin; [|exact Hsub].
    apply list_elem_of_fmap in Hin as (j & -> & _). simpl.
    rewrite length_fmap. symmetry. by eapply Forall2_length.
  - apply Forall_fmap. eapply Forall_impl; [exact Hy|]. by intros r [_ ?].
Qed.

Lemma snd_filter {A B : Type} (P : B → Prop) `{∀ x, Decision (P x)}
    (l : list (A * B)) :
  (filter (fun r => P r.2) l).*2 = filter P l.*2.
Proof.
  induction l as [|[a b] l IH]; [done|].
  rewrite fmap_cons. simpl snd.
  destruct (decide (P b)).
  - rewrite !filter_cons_True by done. rewrite fmap_cons. simpl. by rewrite IH.
  - by rewrite !filter_cons_False.
Qed.

Lemma lookup_default_seq (col : list cell) :
  (fun i => default NaN (col !! i)) <$> seq 0 (length col) = col.
Proof.
  apply list_eq. intros i. rewrite list_lookup_fmap.
  destruct (decide (i < length col)%nat) as [Hi|Hi].
  - rewrite lookup_seq_lt by done. simpl.
    destruct (lookup_lt_is_Some_2 col i Hi) as [c ->]. done.
  - rewrite lookup_seq_ge by lia. simpl. symmetry.
    apply lookup_ge_None_2. lia.
Qed.

(** On a frame whose feature columns are complete (one numeric cell per
    row), the projection succeeds and keeps the targets that are present,
    in order. *)
Lemma project_features_complete (feature_cols : list string) (target : string)
    (df : DataFrame) (tcol : list cell) :
  Forall (fun c => ∃ col, assoc c df = Some col ∧ length col = nrows df ∧
                          Forall (fun x => is_Some (cell_value x)) col)
         feature_cols →
  assoc target df = Some tcol → length tcol = nrows df →
  ∃ Xm y,
    preprocess.project_features feature_cols target df = Ok (Xm, y) ∧
    y.*2 = filter (fun c => isna c = false) tcol.
Proof.
  intros Hcols Htcol Hlen.
  assert (∃ cs, Forall2 (fun c col => assoc c df = Some col) feature_cols cs ∧
                Forall (fun col => length col = nrows df ∧
                                   Forall (fun x => is_Some (cell_value x)) col) cs)
    as (cs & Hcs & Hcomplete).
  { induction Hcols as [|c cols (col & Hc & Hcol) _ (cs & IH1 & IH2)].
    - by exists [].
    - exists (col :: cs). split; by constructor. }
  set (rows := (fun i => (i, (fun c => default NaN (c !! i)) <$> cs))
                 <$> seq 0 (nrows df)).
  assert (preprocess.df_select df feature_cols = Ok rows) as Hsel.
  { unfold preprocess.df_select.
    assert (mapM (df_getitem df) feature_cols = Ok cs) as ->; [|done].
    apply mapM_result_Forall2. eapply Forall2_impl; [exact Hcs|].
    intros c col. apply df_getitem_Ok. }
  assert (Forall (fun r => Forall (fun c => is_Some (cell_value c)) r.2) rows)
    as Hnum.
  { apply Forall_fmap, Forall_forall. intros i Hi%elem_of_seq. simpl.
    apply Forall_fmap. eapply Forall_impl; [exact Hcomplete|].
    intros col [Hl Hc]. simpl.
    destruct (lookup_lt_is_Some_2 col i) as [c Hci]; [lia|]. rewrite Hci.
    simpl. rewrite Forall_forall in Hc. apply Hc.
    by eapply list_elem_of_lookup_2. }
  assert (preprocess.dropna_rows rows = rows) as Hdrop.
  { apply filter_all. eapply Forall_impl; [exact Hnum|].
    intros r Hr. apply forallb_forall. intros c Hc%list_elem_of_In.
    rewrite Forall_forall in Hr. destruct (Hr c Hc) as [q Hq].
    by destruct c. }
  assert (preprocess.index rows = seq 0 (nrows df)) as Hindex.
  { unfold preprocess.index, rows. rewrite <- list_fmap_compose.
    apply list_fmap_id. }
  set (y0 := (fun i => (i, default NaN (tcol !! i))) <$> seq 0 (nrows df)).
  assert (preprocess.df_loc df (seq 0 (nrows df)) target = Ok y0) as Hloc.
  { unfold preprocess.df_loc. rewrite (proj2 (df_getitem_Ok _ _ _) Htcol).
    cbn [mbind result_bind]. apply mapM_result_ok.
    intros i Hi%elem_of_seq.
    destruct (lookup_lt_is_Some_2 tcol i) as [c ->]; [lia|]. done. }
  assert (y0.*1 = seq 0 (nrows df)) as Hy0idx.
  { unfold y0. rewrite <- list_fmap_compose. apply list_fmap_id. }
  assert (y0.*2 = tcol) as Hy0val.
  { unfold y0. rewrite <- list_fmap_compose, <- Hlen.
    apply lookup_default_seq. }
  set (y1 := preprocess.dropna_series y0).
  assert (preprocess.intersection (seq 0 (nrows df)) (preprocess.index y1)
          = preprocess.index y1) as Hcommon.
  { apply filter_elem_of_sublist; [apply NoDup_seq|].
    rewrite <- Hy0idx. apply fmap_sublist, sublist_filter. }
  assert (preprocess.loc y1 (preprocess.index y1) = y1) as Hy1.
  { apply filter_all, Forall_forall. intros r Hr.
    unfold preprocess.index. apply list_elem_of_fmap. by exists r. }
  assert (∃ Xm, preprocess.to_matrix
                  (preprocess.loc rows (preprocess.index y1)) = Ok Xm)
    as [Xm HXm].
  { eexists. unfold preprocess.to_matrix.
    apply (mapM_result_ok _
             (fun r => (fun c => default 0 (cell_value c)) <$> r.2)).
    intros r Hr. apply list_elem_of_filter in Hr as [_ Hr].
    apply mapM_result_ok. intros c Hc.
    rewrite Forall_forall in Hnum. specialize (Hnum r Hr).
    rewrite Forall_forall in Hnum. destruct (Hnum c Hc) as [q ->]. done. }
  exists Xm, y1. split.
  - unfold preprocess.project_features. rewrite Hsel.
    cbn [mbind result_bind]. rewrite Hdrop, Hindex, Hloc.
    cbn [mbind result_bind]. fold y1. rewrite Hcommon, HXm, Hy1. done.
  - unfold y1, preprocess.dropna_series.
    rewrite <- Hy0val. exact (snd_filter (fun c => isna c = false) y0).
Qed.

(** A projection with at least one row is scaled without error. *)
Lemma prepare_features_ok (feature_cols : list string) (target : string)
    (self : preprocess.SatelliteDataPreprocessor) (df : DataFrame)
    (Xm : matrix) (y : preprocess.labelled cell) :
  preprocess.project_features feature_cols target df = Ok (Xm, y) →
  Xm ≠ [] →
  ∃ Xs, (preprocess.prepare_features feature_cols target self df).2
        = Ok (Xs, y.*2, feature_cols) ∧
        length Xs = length Xm.
Proof.
  intros Hp Hne.
  destruct (project_features_shape _ _ _ _ _ Hp) as (_ & Hw & _).
  unfold preprocess.prepare_features. rewrite Hp.
  destruct Xm as [|r rows]; [done|].
  unfold fit_transform, fit. cbn [transform snd n_features_in data_min].
  apply Forall_cons in Hw as [Hr Hrows].
  assert (length (col_fold Qminb r rows) = length feature_cols) as Hmin
    by (by apply col_fold_length).
  unfold n_features_in. cbn [data_min].
  assert (forallb (fun x => length x =? length (col_fold Qminb r rows))
                  (r :: rows) = true) as ->.
  { apply forallb_forall. intros x Hx%list_elem_of_In. apply Nat.eqb_eq.
    rewrite Hmin. apply elem_of_cons in Hx as [->|Hx]; [done|].
    rewrite Forall_forall in Hrows. by apply Hrows. }
  eexists. split; [reflexivity|]. by rewrite length_map.
Qed.




(** X7. A preparation called on a frame that has the feature columns
    but not the target column raises [KeyError] for the target and leaves
    the preprocessor as it was. *)
Theorem preparation_reports_missing_target
    (self : preprocess.SatelliteDataPreprocessor) (df : DataFrame) :
  (Forall (fun c => is_Some (assoc c df)) preprocess.ndvi_prediction_feature_cols →
   assoc "ndvi_7day_ahead" df = None →
   preprocess.prepare_features_for_ndvi_prediction self df
   = (self, Raise (KeyError "'ndvi_7day_ahead'"))) ∧
  (Forall (fun c => is_Some (assoc c df)) preprocess.change_detection_feature_cols →
   assoc "is_change" df = None →
   preprocess.prepare_features_for_change_detection self df
   = (self, Raise (KeyError "'is_change'"))) ∧
  (Forall (fun c => is_Some (assoc c df)) preprocess.risk_classification_feature_cols →
   assoc "risk_level" df = None →
   preprocess.prepare_features_for_risk_classification self df
   = (self, Raise (KeyError "'risk_level'"))).
Proof.
  assert (∀ feature_cols target,
            Forall (fun c => is_Some (assoc c df)) feature_cols →
            assoc target df = None →
            preprocess.prepare_features feature_cols target self df
            = (self, Raise (KeyError (quote target)))) as Hgen.
  { intros feature_cols target Hcols Ht.
    unfold preprocess.prepare_features, preprocess.project_features,
      preprocess.df_select.
    assert (∃ cs, mapM (df_getitem df) feature_cols = Ok cs) as [cs ->].
    { induction Hcols as [|c cols [col Hc] _ [cs IH]]; [by exists []|].
      exists (col :: cs). cbn [mapM].
      rewrite (proj2 (df_getitem_Ok _ _ _) Hc), IH. done. }
    cbn [mbind result_bind mret result_ret].
    unfold preprocess.df_loc, df_getitem. by rewrite Ht. }
  split_and!; intros; by apply Hgen.
Qed.

(** ** More on loading and predicting *)




(** X13. Without a scaler every predictor raises on every input, and
    the model is checked first: the error is "Scaler not loaded" when the
    task's model is loaded and the model's own "not loaded" error
    otherwise; the combined prediction raises as well. *)
Theorem missing_scaler_is_reported_after_the_model
    (self : inference.ModelInference) (p : payload) :
  inference.scaler self = None →
  inference.predict_ndvi self p
  = Raise (ValueError (match inference.models self !! "ndvi_predictor" with
                       | Some _ => "Scaler not loaded"
                       | None => "NDVI predictor model not loaded"
                       end)) ∧
  inference.predict_change_detection self p
  = Raise (ValueError (match inference.models self !! "change_detector" with
                       | Some _ => "Scaler not loaded"
                       | None => "Change detector model not loaded"
                       end)) ∧
  inference.predict_risk_level self p
  = Raise (ValueError (match inference.models self !! "risk_classifier" with
                       | Some _ => "Scaler not loaded"
                       | None => "Risk classifier model not loaded"
                       end)) ∧
  ∃ e, inference.predict_all self p = Raise e.
Proof.
  intros Hs.
  unfold inference.predict_all, inference.predict_ndvi,
    inference.predict_change_detection, inference.predict_risk_level.
  rewrite Hs.
  destruct (inference.models self !! "ndvi_predictor"),
    (inference.models self !! "change_detector"),
    (inference.models self !! "risk_classifier"); split_and!; eauto.
Qed.

(** X14. A body that is not a dict (a list, [null], a number) reaches
    [features.get] outside the [try] block: with model and scaler loaded,
    the predictor raises the bare [AttributeError] and the endpoint
    answers 400 with its message; /predict/all answers 400 with the
    message ['success'], the key it failed to read. *)
Theorem non_dict_body_is_an_attribute_error
    (self : inference.ModelInference) (type_name now : string) :
  is_Some (inference.scaler self) →
  (is_Some (inference.models self !! "ndvi_predictor") →
   inference.predict_ndvi self (NotDict type_name)
   = Raise (AttributeError ("'" +:+ type_name +:+ "' object has no attribute 'get'")) ∧
   backend_integration.predict_ndvi {| inference.inference := self |}
     (backend_integration.mkRequest (Ok (NotDict type_name)))
   = (error_envelope ("'" +:+ type_name +:+ "' object has no attribute 'get'"),
      400%Z)) ∧
  (is_Some (inference.models self !! "change_detector") →
   inference.predict_change_detection self (NotDict type_name)
   = Raise (AttributeError ("'" +:+ type_name +:+ "' object has no attribute 'get'")) ∧
   backend_integration.predict_change {| inference.inference := self |}
     (backend_integration.mkRequest (Ok (NotDict type_name)))
   = (error_envelope ("'" +:+ type_name +:+ "' object has no attribute 'get'"),
      400%Z)) ∧
  (is_Some (inference.models self !! "risk_classifier") →
   inference.predict_risk_level self (NotDict type_name)
   = Raise (AttributeError ("'" +:+ type_name +:+ "' object has no attribute 'get'")) ∧
   backend_integration.predict_risk {| inference.inference := self |}
     (backend_integration.mkRequest (Ok (NotDict type_name)))
   = (error_envelope ("'" +:+ type_name +:+ "' object has no attribute 'get'"),
      400%Z)) ∧
  backend_integration.predict_all {| inference.inference := self |} now
    (backend_integration.mkRequest (Ok (NotDict type_name)))
  = (error_envelope "'success'", 400%Z).
Proof.
  intros [sc Hs].
  split_and!; [intros [m Hm] .. | reflexivity].
  - assert (inference.predict_ndvi self (NotDict type_name)
            = Raise (AttributeError
                       ("'" +:+ type_name +:+ "' object has no attribute 'get'")))
      as E by (unfold inference.predict_ndvi; by rewrite Hm, Hs).
    split; [exact E|]. unfold backend_integration.predict_ndvi.
    cbn [backend_integration.get_json mbind result_bind inference.inference].
    by rewrite E.
  - assert (inference.predict_change_detection self (NotDict type_name)
            = Raise (AttributeError
                       ("'" +:+ type_name +:+ "' object has no attribute 'get'")))
      as E by (unfold inference.predict_change_detection; by rewrite Hm, Hs).
    split; [exact E|]. unfold backend_integration.predict_change.
    cbn [backend_integration.get_json mbind result_bind inference.inference].
    by rewrite E.
  - assert (inference.predict_risk_level self (NotDict type_name)
            = Raise (AttributeError
                       ("'" +:+ type_name +:+ "' object has no attribute 'get'")))
      as E by (unfold inference.predict_risk_level; by rewrite Hm, Hs).
    split; [exact E|]. unfold backend_integration.predict_risk.
    cbn [backend_integration.get_json mbind result_bind inference.inference].
    by rewrite E.
Qed.

(** The row a predictor hands to the scaler. *)
Lemma transform_row (s : ScalerState) (row : list Q) :
  length row = n_features_in s →
  transform (Some s) [row] = Ok [scale_row s row].
Proof.
  intros H. unfold transform. cbn [forallb]. rewrite H, Nat.eqb_refl. done.
Qed.

(** X15. With a regressor and a scaler fitted on seven columns loaded,
    [predict_ndvi] feeds the regressor one row, the seven NDVI fields in
    order with 0 for a missing field, scaled by the loaded scaler, and
    returns the first prediction clipped to [0, 1]. *)
Theorem predict_ndvi_scales_then_predicts
    (self : inference.ModelInference) (m : Model) (s : ScalerState)
    (d : gmap string Q) (p : Q) (rest : list Q) :
  inference.models self !! "ndvi_predictor" = Some (PModel m) →
  inference.scaler self = Some (PScaler (Some s)) →
  n_features_in s = 7%nat →
  predict m [scale_row s ((fun c => default 0 (d !! c))
                            <$> inference.predict_ndvi_feature_cols)]
  = Ok (p :: rest) →
  inference.predict_ndvi self (Dict d) = Ok (clip p 0 1).
Proof.
  intros Hm Hs Hn Hp. unfold inference.predict_ndvi.
  rewrite Hm, Hs, build_row_dict. cbn [mbind result_bind call_transform].
  rewrite transform_row by (by rewrite length_fmap, Hn).
  cbn [mbind result_bind call_predict]. by rewrite Hp.
Qed.

(** X16. With a classifier and a scaler fitted on seven columns loaded,
    [predict_change_detection] feeds the classifier the scaled row of the
    seven change-detection fields; [is_change] is whether the first
    prediction is non-zero and [confidence] is the second class
    probability of the first row. *)
Theorem predict_change_detection_scales_then_predicts
    (self : inference.ModelInference) (m : Model) (s : ScalerState)
    (d : gmap string Q) (p negative positive : Q) (rest others : list Q)
    (more : matrix) :
  inference.models self !! "change_detector" = Some (PModel m) →
  inference.scaler self = Some (PScaler (Some s)) →
  n_features_in s = 7%nat →
  predict m [scale_row s ((fun c => default 0 (d !! c))
                            <$> inference.predict_change_detection_feature_cols)]
  = Ok (p :: rest) →
  predict_proba m
    [scale_row s ((fun c => default 0 (d !! c))
                    <$> inference.predict_change_detection_feature_cols)]
  = Ok ((negative :: positive :: others) :: more) →
  inference.predict_change_detection self (Dict d)
  = Ok {| inference.is_change := negb (Qeq_bool p 0);
          inference.confidence := positive |}.
Proof.
  intros Hm Hs Hn Hp Hpp. unfold inference.predict_change_detection.
  rewrite Hm, Hs, build_row_dict. cbn [mbind result_bind call_transform].
  rewrite transform_row by (by rewrite length_fmap, Hn).
  cbn [mbind result_bind call_predict call_predict_proba].
  by rewrite Hp, Hpp.
Qed.

(** X17. With a classifier and a scaler fitted on seven columns loaded,
    [predict_risk_level] feeds the classifier the scaled row of the seven
    risk fields; [risk_level] is the first prediction truncated to an
    integer, [risk_label] its entry in the label dict, and [confidence]
    the largest class probability of the first row. *)
Theorem predict_risk_level_scales_then_predicts
    (self : inference.ModelInference) (m : Model) (s : ScalerState)
    (d : gmap string Q) (p first : Q) (rest others : list Q) (more : matrix)
    (label : string) :
  inference.models self !! "risk_classifier" = Some (PModel m) →
  inference.scaler self = Some (PScaler (Some s)) →
  n_features_in s = 7%nat →
  predict m [scale_row s ((fun c => default 0 (d !! c))
                            <$> inference.predict_risk_level_feature_cols)]
  = Ok (p :: rest) →
  predict_proba m
    [scale_row s ((fun c => default 0 (d !! c))
                    <$> inference.predict_risk_level_feature_cols)]
  = Ok ((first :: others) :: more) →
  inference.risk_levels !! py_int p = Some label →
  inference.predict_risk_level self (Dict d)
  = Ok {| inference.risk_level := py_int p;
          inference.risk_label := label;
          inference.risk_confidence := fold_left Qmaxb others first |}.
Proof.
  intros Hm Hs Hn Hp Hpp Hl. unfold inference.predict_risk_level.
  rewrite Hm, Hs, build_row_dict. cbn [mbind result_bind call_transform].
  rewrite transform_row by (by rewrite length_fmap, Hn).
  cbn [mbind result_bind call_predict call_predict_proba].
  rewrite Hp, Hpp. cbn. unfold inference.risk_levels_getitem. by rewrite Hl.
Qed.


Lemma Qmaxb_fold_elem_of (l : list Q) (x : Q) : fold_left Qmaxb l x ∈ x :: l.
Proof.
  revert x. induction l as [|y l IH]; intros x; [left|].
  simpl. specialize (IH (Qmaxb x y)).
  apply elem_of_cons in IH as [->|IH].
  - unfold Qmaxb. destruct (Qltb x y); [right; left | left].
  - by do 2 right.
Qed.

Lemma Qmaxb_fold_upper (l : list Q) (x : Q) :
  Forall (fun y => y <= fold_left Qmaxb l x) (x :: l).
Proof.
  revert x. induction l as [|y l IH]; intros x.
  - constructor; [apply Qle_refl | constructor].
  - simpl. specialize (IH (Qmaxb x y)).
    apply Forall_cons in IH as [Hm Hl].
    assert (x <= Qmaxb x y ∧ y <= Qmaxb x y) as [Hx Hy].
    { unfold Qmaxb. destruct (Qltb x y) eqn:E.
      - apply Qltb_lt in E. split; [by apply Qlt_le_weak | apply Qle_refl].
      - apply Qltb_ge in E. split; [apply Qle_refl | done]. }
    repeat constructor; try done; by eapply Qle_trans.
Qed.

(** Where the confidence of each classifier comes from. *)
Lemma confidence_source
    (self : inference.ModelInference) (features : payload) (m : Model) :
  (inference.models self !! "change_detector" = Some (PModel m) →
   ∀ r, inference.predict_change_detection self features = Ok r →
        ∃ X P row, predict_proba m X = Ok P ∧ P !! 0%nat = Some row ∧
                   row !! 1%nat = Some (inference.confidence r)) ∧
  (inference.models self !! "risk_classifier" = Some (PModel m) →
   ∀ r, inference.predict_risk_level self features = Ok r →
        ∃ X P row, predict_proba m X = Ok P ∧ P !! 0%nat = Some row ∧
                   inference.risk_confidence r ∈ row ∧
                   Forall (fun q => q <= inference.risk_confidence r) row).
Proof.
  split.
  - intros Hm r H. unfold inference.predict_change_detection in H.
    rewrite Hm in H. result_cases H. unfold getitem in *.
    repeat case_match; simplify_eq.
    match goal with
    | Hp : call_predict_proba (PModel m) ?X = Ok ?P |- _ =>
        exists X, P; eauto
    end.
  - intros Hm r H. unfold inference.predict_risk_level in H.
    rewrite Hm in H. result_cases H. unfold getitem, py_max in *.
    repeat case_match; simplify_eq.
    match goal with
    | Hp : call_predict_proba (PModel m) ?X = Ok ?P |- _ =>
        exists X, P; eexists; split_and!; [exact Hp | done | |]
    end; simpl.
    + apply Qmaxb_fold_elem_of.
    + apply Qmaxb_fold_upper.
Qed.

(** X19. The confidence of a change detection is the probability the
    classifier returned for class 1, and the confidence of a risk
    assessment is the largest of the class probabilities it returned; so
    both lie within [0, 1] whenever the classifier's probabilities do. *)
Theorem confidence_is_a_returned_probability
    (self : inference.ModelInference) (features : payload) (m : Model) :
  (inference.models self !! "change_detector" = Some (PModel m) →
   ∀ r, inference.predict_change_detection self features = Ok r →
        (∃ X P row, predict_proba m X = Ok P ∧ P !! 0%nat = Some row ∧
                    row !! 1%nat = Some (inference.confidence r)) ∧
        ((∀ X P, predict_proba m X = Ok P →
                 Forall (Forall (fun q => 0 <= q ∧ q <= 1)) P) →
         0 <= inference.confidence r ∧ inference.confidence r <= 1)) ∧
  (inference.models self !! "risk_classifier" = Some (PModel m) →
   ∀ r, inference.predict_risk_level self features = Ok r →
        (∃ X P row, predict_proba m X = Ok P ∧ P !! 0%nat = Some row ∧
                    inference.risk_confidence r ∈ row ∧
                    Forall (fun q => q <= inference.risk_confidence r) row) ∧
        ((∀ X P, predict_proba m X = Ok P →
                 Forall (Forall (fun q => 0 <= q ∧ q <= 1)) P) →
         0 <= inference.risk_confidence r ∧ inference.risk_confidence r <= 1)).
Proof.
  destruct (confidence_source self features m) as [Hc Hr].
  split.
  - intros Hm r H. destruct (Hc Hm r H) as (X & P & row & HP & Hrow & Hconf).
    split; [by exists X, P, row|]. intros Hprob.
    specialize (Hprob X P HP). rewrite Forall_forall in Hprob.
    specialize (Hprob row (list_elem_of_lookup_2 _ _ _ Hrow)).
    rewrite Forall_forall in Hprob.
    exact (Hprob _ (list_elem_of_lookup_2 _ _ _ Hconf)).
  - intros Hm r H.
    destruct (Hr Hm r H) as (X & P & row & HP & Hrow & Hconf & Hmax).
    split; [by exists X, P, row|]. intros Hprob.
    specialize (Hprob X P HP). rewrite Forall_forall in Hprob.
    specialize (Hprob row (list_elem_of_lookup_2 _ _ _ Hrow)).
    rewrite Forall_forall in Hprob. exact (Hprob _ Hconf).
Qed.

(** X20. When several sub-predictions fail, [process_request] reports
    the first in the order NDVI, change detection, risk: the error string
    of the envelope is the message of the first predictor that raises. *)
Theorem process_request_reports_the_first_failure
    (api : inference.ModelAPI) (now : string) (d : gmap string Q) (e : exn) :
  (inference.predict_ndvi (inference.inference api) (Dict d) = Raise e →
   inference.process_request api now (Dict d) = error_envelope (str e)) ∧
  (is_ok (inference.predict_ndvi (inference.inference api) (Dict d)) = true →
   inference.predict_change_detection (inference.inference api) (Dict d) = Raise e →
   inference.process_request api now (Dict d) = error_envelope (str e)) ∧
  (is_ok (inference.predict_ndvi (inference.inference api) (Dict d)) = true →
   is_ok (inference.predict_change_detection (inference.inference api) (Dict d))
   = true →
   inference.predict_risk_level (inference.inference api) (Dict d) = Raise e →
   inference.process_request api now (Dict d) = error_envelope (str e)).
Proof.
  unfold inference.process_request, inference.predict_all.
  split_and!.
  - by intros ->.
  - destruct (inference.predict_ndvi _ _); [|done]. by intros _ ->.
  - destruct (inference.predict_ndvi _ _); [|done].
    destruct (inference.predict_change_detection _ _); [|done].
    by intros _ _ ->.
Qed.

(** ** The endpoints *)

(** X21. Each of the four prediction endpoints answers every request
    either with status 200 and [success: true], or with status 400 and
    exactly the envelope [{success: false, error: msg}]. *)
Theorem status_and_success_flag_agree
    (api : inference.ModelAPI) (now : string)
    (request : backend_integration.Request) (response : backend_integration.response) :
  response = backend_integration.predict_ndvi api request
  ∨ response = backend_integration.predict_change api request
  ∨ response = backend_integration.predict_risk api request
  ∨ response = backend_integration.predict_all api now request →
  (response.2 = 200%Z ∧ json_getitem response.1 "success" = Ok (JBool true))
  ∨ (response.2 = 400%Z ∧ ∃ msg, response.1 = error_envelope msg).
Proof.
  intros [-> | [-> | [-> | ->]]].
  - unfold backend_integration.predict_ndvi.
    destruct (backend_integration.get_json request) as [p|e];
      [|right; by eauto].
    cbn [mbind result_bind].
    destruct (inference.predict_ndvi _ p); [by left | right; by eauto].
  - unfold backend_integration.predict_change.
    destruct (backend_integration.get_json request) as [p|e];
      [|right; by eauto].
    cbn [mbind result_bind].
    destruct (inference.predict_change_detection _ p);
      [by left | right; by eauto].
  - unfold backend_integration.predict_risk.
    destruct (backend_integration.get_json request) as [p|e];
      [|right; by eauto].
    cbn [mbind result_bind].
    destruct (inference.predict_risk_level _ p); [by left | right; by eauto].
  - unfold backend_integration.predict_all, inference.process_request.
    destruct (backend_integration.get_json request) as [[d|t]|e];
      [| right; by eauto | right; by eauto].
    cbn [mbind result_bind].
    destruct (inference.predict_all _ _); [by left | right; by eauto].
Qed.

(** X22. /predict/change reports severity "high" exactly when a change
    is detected with confidence strictly above 0.8, and "low" otherwise,
    a confidence of exactly 0.8 included. *)
Theorem change_severity_threshold
    (api : inference.ModelAPI) (p : payload) (r : inference.change_detection) :
  inference.predict_change_detection (inference.inference api) p = Ok r →
  ∃ severity,
    backend_integration.predict_change api (backend_integration.mkRequest (Ok p))
    = (JObj [ ("success", JBool true);
              ("change_detected", JBool (inference.is_change r));
              ("confidence", JFloat (inference.confidence r));
              ("severity", JStr severity) ], 200%Z) ∧
    (severity = "high" ↔
       inference.is_change r = true ∧ 0.8 < inference.confidence r) ∧
    (severity = "low" ↔
       inference.is_change r = false ∨ inference.confidence r <= 0.8).
Proof.
  intros H. unfold backend_integration.predict_change.
  cbn [backend_integration.get_json mbind result_bind]. rewrite H.
  eexists. split; [reflexivity|].
  destruct (inference.is_change r); cbn [andb].
  - destruct (Qltb 0.8 (inference.confidence r)) eqn:E.
    + apply Qltb_lt in E. split; split; try done.
      intros [?|Hle]; [done|]. exfalso. by apply (Qlt_not_le _ _ E).
    + apply Qltb_ge in E. split; split; try done.
      * intros [_ Hlt]. exfalso. by apply (Qlt_not_le _ _ Hlt).
      * intros _. by right.
  - split; split; try done.
    + by intros [? _].
    + intros _. by left.
Qed.

(** What a returned risk assessment can be. *)
Lemma predict_risk_level_cases
    (self : inference.ModelInference) (features : payload)
    (r : inference.risk_assessment) :
  inference.predict_risk_level self features = Ok r →
  (inference.risk_level r = 0%Z ∧ inference.risk_label r = "Low")
  ∨ (inference.risk_level r = 1%Z ∧ inference.risk_label r = "Medium")
  ∨ (inference.risk_level r = 2%Z ∧ inference.risk_label r = "High").
Proof.
  intros H. unfold inference.predict_risk_level in H. result_cases H.
  simpl. unfold inference.risk_levels_getitem in *. case_match; simplify_eq.
  by apply risk_levels_lookup.
Qed.

(** X23. /predict/risk reports the action that goes with the label:
    "none" for Low, "moderate" for Medium, "high" for High. *)
Theorem risk_action_follows_the_label
    (api : inference.ModelAPI) (p : payload) (r : inference.risk_assessment) :
  inference.predict_risk_level (inference.inference api) p = Ok r →
  ∃ action,
    backend_integration.predict_risk api (backend_integration.mkRequest (Ok p))
    = (JObj [ ("success", JBool true);
              ("risk_level", JInt (inference.risk_level r));
              ("risk_label", JStr (inference.risk_label r));
              ("confidence", JFloat (inference.risk_confidence r));
              ("action_required", JStr action) ], 200%Z) ∧
    ((inference.risk_label r = "Low" ∧ action = "none")
     ∨ (inference.risk_label r = "Medium" ∧ action = "moderate")
     ∨ (inference.risk_label r = "High" ∧ action = "high")).
Proof.
  intros H. unfold backend_integration.predict_risk.
  cbn [backend_integration.get_json mbind result_bind]. rewrite H.
  eexists. split; [reflexivity|].
  destruct (predict_risk_level_cases _ _ _ H)
    as [[-> ->]|[[-> ->]|[-> ->]]]; simpl; eauto.
Qed.

(** ** Saving and loading artifacts *)

Lemma append_length (a b : string) :
  String.length (a +:+ b) = (String.length a + String.length b)%nat.
Proof. induction a as [|c a IH]; [done|]. simpl. by rewrite IH. Qed.

Lemma append_inj_r (a b s : string) : a +:+ s = b +:+ s → a = b.
Proof.
  revert b. induction a as [|c a IH]; intros [|c' b] H.
  - done.
  - apply (f_equal String.length) in H.
    rewrite !append_length in H. simpl in H. lia.
  - apply (f_equal String.length) in H.
    rewrite !append_length in H. simpl in H. lia.
  - injection H as -> H. f_equal. by apply IH.
Qed.

#[local] Instance model_path_inj : Inj (=) (=) train_model.model_path.
Proof.
  intros a b H. unfold train_model.model_path in H.
  apply String.app_inj in H. by apply append_inj_r in H.
Qed.

(** The directory after [save_all_models]: the trainer's estimators under
    their paths, over what was there. *)
Lemma save_all_models_union (self : train_model.ModelTrainer) (fs : filesystem) :
  (train_model.save_all_models self fs).1
  = kmap train_model.model_path (PModel <$> train_model.models self) ∪ fs.
Proof.
  unfold train_model.save_all_models. cbn [fst].
  apply (map_fold_weak_ind
           (fun r (m : gmap string Model) =>
              r = kmap train_model.model_path (PModel <$> m) ∪ fs)).
  - by rewrite fmap_empty, kmap_empty, (left_id_L ∅ (∪)).
  - intros name model m r Hm ->.
    rewrite fmap_insert, kmap_insert by apply _. by rewrite insert_union_l.
Qed.

Lemma save_all_models_lookup (self : train_model.ModelTrainer) (fs : filesystem)
    (name : string) :
  (train_model.save_all_models self fs).1 !! train_model.model_path name
  = match train_model.models self !! name with
    | Some m => Some (PModel m)
    | None => fs !! train_model.model_path name
    end.
Proof.
  rewrite save_all_models_union, lookup_union.
  rewrite lookup_kmap by apply _. rewrite lookup_fmap.
  destruct (train_model.models self !! name); simpl; [|by rewrite (left_id_L None _)].
  by destruct (fs !! train_model.model_path name).
Qed.

Lemma save_all_models_other (self : train_model.ModelTrainer) (fs : filesystem)
    (path : string) :
  (∀ name, is_Some (train_model.models self !! name) →
           path ≠ train_model.model_path name) →
  (train_model.save_all_models self fs).1 !! path = fs !! path.
Proof.
  intros H. rewrite save_all_models_union, lookup_union.
  assert (kmap train_model.model_path (PModel <$> train_model.models self)
            !! path = None) as ->; [|by rewrite (left_id_L None _)].
  apply lookup_kmap_None; [apply _|]. intros name ->.
  rewrite lookup_fmap.
  destruct (train_model.models self !! name) eqn:E; [|done].
  exfalso. by eapply H.
Qed.

(** What the server holds when it starts on a directory the trainer has
    saved to. *)
Lemma server_after_save (trainer : train_model.ModelTrainer) (fs : filesystem) :
  (∀ name,
     name ∈ ["ndvi_predictor"; "change_detector"; "risk_classifier"] →
     inference.models
       (inference.inference
          (backend_integration.model_api
             (train_model.save_all_models trainer fs).1)) !! name
     = match train_model.models trainer !! name with
       | Some m => Some (PModel m)
       | None => fs !! train_model.model_path name
       end) ∧
  inference.scaler
    (inference.inference
       (backend_integration.model_api (train_model.save_all_models trainer fs).1))
  = match train_model.models trainer !! "scaler" with
    | Some m => Some (PModel m)
    | None => fs !! "../models/scaler.pkl"
    end.
Proof.
  destruct (model_api_loaded (train_model.save_all_models trainer fs).1)
    as (Hn & Hc & Hr & Hs).
  change "../models/ndvi_predictor.pkl"
    with (train_model.model_path "ndvi_predictor") in Hn.
  change "../models/change_detector.pkl"
    with (train_model.model_path "change_detector") in Hc.
  change "../models/risk_classifier.pkl"
    with (train_model.model_path "risk_classifier") in Hr.
  change "../models/scaler.pkl" with (train_model.model_path "scaler") in Hs.
  rewrite save_all_models_lookup in Hn, Hc, Hr, Hs.
  split; [|exact Hs].
  intros name Hin.
  repeat (apply elem_of_cons in Hin as [->|Hin]);
    [exact Hn | exact Hc | exact Hr | by apply elem_of_nil in Hin].
Qed.

(** X24. What [save_all_models] writes is what the server loads: under
    each of the three model names the server holds the trainer's
    estimator of that name, or the file that was already there when the
    trainer has none. *)
Theorem saved_models_are_the_models_loaded
    (trainer : train_model.ModelTrainer) (fs : filesystem) (name : string) :
  name ∈ ["ndvi_predictor"; "change_detector"; "risk_classifier"] →
  inference.models
    (inference.inference
       (backend_integration.model_api
          (train_model.save_all_models trainer fs).1)) !! name
  = match train_model.models trainer !! name with
    | Some m => Some (PModel m)
    | None => fs !! train_model.model_path name
    end.
Proof. apply server_after_save. Qed.

(** X25. [save_all_models] writes no scaler: a server started on a
    directory that holds only what a trainer without a "scaler" entry has
    saved has no scaler, and answers "Scaler not loaded" for every task
    whose model the trainer held. *)
Theorem training_alone_leaves_no_scaler
    (trainer : train_model.ModelTrainer) (p : payload) :
  train_model.models trainer !! "scaler" = None →
  inference.scaler
    (inference.inference
       (backend_integration.model_api (train_model.save_all_models trainer ∅).1))
  = None ∧
  (is_Some (train_model.models trainer !! "ndvi_predictor") →
   inference.predict_ndvi
     (inference.inference
        (backend_integration.model_api (train_model.save_all_models trainer ∅).1))
     p
   = Raise (ValueError "Scaler not loaded")) ∧
  (is_Some (train_model.models trainer !! "change_detector") →
   inference.predict_change_detection
     (inference.inference
        (backend_integration.model_api (train_model.save_all_models trainer ∅).1))
     p
   = Raise (ValueError "Scaler not loaded")) ∧
  (is_Some (train_model.models trainer !! "risk_classifier") →
   inference.predict_risk_level
     (inference.inference
        (backend_integration.model_api (train_model.save_all_models trainer ∅).1))
     p
   = Raise (ValueError "Scaler not loaded")).
Proof.
  intros Hnone. destruct (server_after_save trainer ∅) as [Hm Hs].
  rewrite Hnone, lookup_empty in Hs.
  split_and!; [exact Hs | intros [m E] ..].
  - unfold inference.predict_ndvi.
    rewrite Hm, E, Hs by (repeat first [by left | right]). done.
  - unfold inference.predict_change_detection.
    rewrite Hm, E, Hs by (repeat first [by left | right]). done.
  - unfold inference.predict_risk_level.
    rewrite Hm, E, Hs by (repeat first [by left | right]). done.
Qed.

(** ** Preparing a generated frame *)

Section GeneratedPreparation.

Context {rng : Type}.
Variable seed : Z → rng.
Variable random_uniform : Q → Q → rng → Q * rng.
Variable random_normal : Q → Q → rng → Q * rng.

Local Abbreviation generate :=
  (preprocess.generate_synthetic_training_data seed random_uniform random_normal).

Lemma Float_column_complete (l : list Q) (n : nat) :
  length l = n →
  length (Float <$> l) = n ∧
  Forall (fun x => is_Some (cell_value x)) (Float <$> l).
Proof.
  intros H. split; [by rewrite length_fmap|].
  apply Forall_fmap, Forall_forall. intros x _. simpl. eauto.
Qed.

(** Every feature column of a generated frame is complete, and the three
    target columns have 30 cells of which 23, 30 and 30 are present. *)
Lemma generate_complete (g : rng) (n_samples : nat) :
  nrows (generate g n_samples).1 = 30%nat ∧
  Forall (fun c => ∃ col, assoc c (generate g n_samples).1 = Some col ∧
                          length col = nrows (generate g n_samples).1 ∧
                          Forall (fun x => is_Some (cell_value x)) col)
         [ "ndvi"; "ndvi_prev"; "ndvi_change"; "red_band"; "nir_band";
           "blue_band"; "green_band"; "cloud_cover"; "temperature"; "humidity" ] ∧
  (∃ t, assoc "ndvi_7day_ahead" (generate g n_samples).1 = Some t ∧
        length t = 30%nat ∧
        length (filter (fun c => isna c = false) t) = 23%nat) ∧
  (∃ t, assoc "is_change" (generate g n_samples).1 = Some t ∧
        length t = 30%nat ∧
        length (filter (fun c => isna c = false) t) = 30%nat) ∧
  (∃ t, assoc "risk_level" (generate g n_samples).1 = Some t ∧
        length t = 30%nat ∧
        length (filter (fun c => isna c = false) t) = 30%nat).
Proof.
  destruct (generate_columns seed random_uniform random_normal g n_samples)
    as (v & red & nir & blue & green & cloud & temp & hum
        & Hv & Hred & Hnir & Hblue & Hgreen & Hcloud & Htemp & Hhum & ->).
  split_and!.
  - reflexivity.
  - repeat (apply Forall_cons; split; [eexists; split; [reflexivity|]|]);
      try (by apply Forall_nil_2);
      apply Float_column_complete;
      rewrite ?roll_length, ?diff_prepend_length; done.
  - eexists. split; [reflexivity|].
    rewrite shift_back_rolling_week by done.
    split; [by rewrite length_app, length_fmap, length_seq, length_replicate|].
    rewrite filter_app, filter_all, filter_none.
    + by rewrite app_nil_r, length_fmap, length_seq.
    + apply Forall_forall. by intros c ->%elem_of_replicate_inv.
    + apply Forall_fmap, Forall_forall. by intros i _.
  - eexists. split; [reflexivity|].
    assert (length ((fun c => bool_to_int (cell_lt c (-0.1)))
                      <$> (Float <$> diff_prepend v 0)) = 30%nat) as Hl
      by (by rewrite !length_fmap, diff_prepend_length).
    split; [done|]. rewrite filter_all; [done|].
    apply Forall_fmap, Forall_forall. by intros c _.
  - eexists. split; [reflexivity|].
    match goal with |- length ?t = _ ∧ _ =>
      assert (length t = 30%nat) as Hl
        by (rewrite length_zip_with, !length_fmap, diff_prepend_length; lia)
    end.
    split; [done|]. rewrite filter_all; [done|].
    apply Forall_forall. intros c [i Hi]%list_elem_of_lookup.
    rewrite lookup_zip_with in Hi.
    destruct ((Float <$> v) !! i) as [a|]; [|done].
    destruct ((Float <$> diff_prepend v 0) !! i) as [b|]; [|done].
    simpl in Hi. injection Hi as <-. by repeat case_match.
Qed.


(** Inclusion of one literal list of column names in another. *)
Ltac cols_subset :=
  let c := fresh "c" in let Hc := fresh "Hc" in
  intros c Hc;
  repeat (apply elem_of_cons in Hc as [->|Hc];
          [repeat first [by left | right]|]);
  by apply elem_of_nil in Hc.

(** One preparation of a generated frame: it succeeds, with one sample per
    present target. *)
Lemma prepare_generated (feature_cols : list string) (target : string)
    (self : preprocess.SatelliteDataPreprocessor) (g : rng) (n_samples : nat)
    (t : list cell) (count : nat) :
  feature_cols ⊆ [ "ndvi"; "ndvi_prev"; "ndvi_change"; "red_band"; "nir_band";
                   "blue_band"; "green_band"; "cloud_cover"; "temperature";
                   "humidity" ] →
  assoc target (generate g n_samples).1 = Some t →
  length t = 30%nat →
  length (filter (fun c => isna c = false) t) = S count →
  ∃ X y,
    (preprocess.prepare_features feature_cols target self (generate g n_samples).1).2
    = Ok (X, y, feature_cols) ∧
    length X = S count ∧ length y = S count.
Proof.
  intros Hcols Ht Hlen Hcount.
  destruct (generate_complete g n_samples) as (Hrows & Hall & _).
  destruct (project_features_complete feature_cols target
              (generate g n_samples).1 t) as (Xm & yl & Hp & Hy);
    [ | done | by rewrite Hrows | ].
  { apply Forall_forall. intros c Hc. rewrite Forall_forall in Hall.
    by apply Hall, Hcols. }
  destruct (project_features_shape _ _ _ _ _ Hp) as (HXm & _ & _).
  assert (length yl = S count) as Hyl
    by (by rewrite <- (length_fmap snd), Hy).
  destruct (prepare_features_ok feature_cols target self _ _ _ Hp)
    as (Xs & HXs & HlenXs).
  { intros ->. simpl in HXm. lia. }
  exists Xs, yl.*2. split_and!; [done | lia | by rewrite length_fmap].
Qed.

(** X8. On every generated frame the three preparations succeed,
    whatever the scaler held before: NDVI prediction gets 23 samples (the
    last seven rows have no target), change detection and risk
    classification get all 30. *)
Theorem generated_frame_sample_counts
    (self : preprocess.SatelliteDataPreprocessor) (g : rng) (n_samples : nat) :
  (∃ X y,
     (preprocess.prepare_features_for_ndvi_prediction self
        (generate g n_samples).1).2
     = Ok (X, y, preprocess.ndvi_prediction_feature_cols) ∧
     length X = 23%nat ∧ length y = 23%nat) ∧
  (∃ X y,
     (preprocess.prepare_features_for_change_detection self
        (generate g n_samples).1).2
     = Ok (X, y, preprocess.change_detection_feature_cols) ∧
     length X = 30%nat ∧ length y = 30%nat) ∧
  (∃ X y,
     (preprocess.prepare_features_for_risk_classification self
        (generate g n_samples).1).2
     = Ok (X, y, preprocess.risk_classification_feature_cols) ∧
     length X = 30%nat ∧ length y = 30%nat).
Proof.
  destruct (generate_complete g n_samples)
    as (_ & _ & (t1 & Ht1 & Hl1 & Hc1) & (t2 & Ht2 & Hl2 & Hc2)
        & (t3 & Ht3 & Hl3 & Hc3)).
  split_and!.
  - eapply prepare_generated; [|exact Ht1|exact Hl1|exact Hc1].
    unfold preprocess.ndvi_prediction_feature_cols. cols_subset.
  - eapply prepare_generated; [|exact Ht2|exact Hl2|exact Hc2].
    unfold preprocess.change_detection_feature_cols. cols_subset.
  - eapply prepare_generated; [|exact Ht3|exact Hl3|exact Hc3].
    unfold preprocess.risk_classification_feature_cols. cols_subset.
Qed.

(** X9. Run in sequence on a generated frame, as the training run does,
    the three preparations never raise. *)
Theorem generated_frame_training_run_completes
    (self : preprocess.SatelliteDataPreprocessor) (g : rng) (n_samples : nat) :
  (preprocess.prepare_all self (generate g n_samples).1).2 = Ok ().
Proof.
  destruct (generate_complete g n_samples)
    as (_ & _ & (t1 & Ht1 & Hl1 & Hc1) & (t2 & Ht2 & Hl2 & Hc2)
        & (t3 & Ht3 & Hl3 & Hc3)).
  assert (∀ s, ∃ r, (preprocess.prepare_features_for_ndvi_prediction s
                       (generate g n_samples).1).2 = Ok r) as H1.
  { intros s. edestruct (prepare_generated preprocess.ndvi_prediction_feature_cols)
      as (X & y & H & _); [|exact Ht1|exact Hl1|exact Hc1|eexists; exact H].
    unfold preprocess.ndvi_prediction_feature_cols. cols_subset. }
  assert (∀ s, ∃ r, (preprocess.prepare_features_for_change_detection s
                       (generate g n_samples).1).2 = Ok r) as H2.
  { intros s. edestruct (prepare_generated preprocess.change_detection_feature_cols)
      as (X & y & H & _); [|exact Ht2|exact Hl2|exact Hc2|eexists; exact H].
    unfold preprocess.change_detection_feature_cols. cols_subset. }
  assert (∀ s, ∃ r, (preprocess.prepare_features_for_risk_classification s
                       (generate g n_samples).1).2 = Ok r) as H3.
  { intros s. edestruct (prepare_generated preprocess.risk_classification_feature_cols)
      as (X & y & H & _); [|exact Ht3|exact Hl3|exact Hc3|eexists; exact H].
    unfold preprocess.risk_classification_feature_cols. cols_subset. }
  unfold preprocess.prepare_all.
  destruct (H1 self) as [r1 E1].
  destruct (preprocess.prepare_features_for_ndvi_prediction self _) as [s1 r1'].
  simpl in E1. subst r1'.
  destruct (H2 s1) as [r2 E2].
  destruct (preprocess.prepare_features_for_change_detection s1 _) as [s2 r2'].
  simpl in E2. subst r2'.
  destruct (H3 s2) as [r3 E3].
  destruct (preprocess.prepare_features_for_risk_classification s2 _) as [s3 r3'].
  simpl in E3. subst r3'. done.
Qed.


(** The scaler a preparation leaves: fitted on the projected matrix. *)
Lemma prepare_features_scaler (feature_cols : list string) (target : string)
    (self : preprocess.SatelliteDataPreprocessor) (df : DataFrame)
    (r : list Q) (rows : matrix) (y : preprocess.labelled cell) :
  preprocess.project_features feature_cols target df = Ok (r :: rows, y) →
  preprocess.scaler_features
    (preprocess.prepare_features feature_cols target self df).1
  = Some {| data_min := col_fold Qminb r rows;
            data_max := col_fold Qmaxb r rows |} ∧
  length (col_fold Qminb r rows) = length feature_cols.
Proof.
  intros Hp. destruct (project_features_shape _ _ _ _ _ Hp) as (_ & Hw & _).
  apply Forall_cons in Hw as [Hr Hrows].
  split; [|by apply col_fold_length].
  unfold preprocess.prepare_features. rewrite Hp.
  unfold fit_transform, fit. done.
Qed.

(** X10. After the three preparations of a generated frame, the scaler
    that [save_scaler] writes and the server loads is fitted on seven
    columns, so the scaling step accepts every seven-field row that the
    predictors build. *)
Theorem saved_scaler_accepts_inference_rows
    (self : preprocess.SatelliteDataPreprocessor) (g : rng) (n_samples : nat)
    (fs : filesystem) :
  ∃ s : ScalerState,
    inference.scaler
      (inference.inference
         (backend_integration.model_api
            (preprocess.save_scaler
               (preprocess.prepare_all self (generate g n_samples).1).1
               preprocess.default_scaler_path fs)))
    = Some (PScaler (Some s)) ∧
    n_features_in s = 7%nat ∧
    ∀ row : list Q, length row = 7%nat →
                    transform (Some s) [row] = Ok [scale_row s row].
Proof.
  destruct (generate_complete g n_samples)
    as (Hrows & Hall & (t1 & Ht1 & Hl1 & Hc1) & (t2 & Ht2 & Hl2 & Hc2)
        & (t3 & Ht3 & Hl3 & Hc3)).
  assert (∀ s, ∃ r, (preprocess.prepare_features_for_ndvi_prediction s
                       (generate g n_samples).1).2 = Ok r) as H1.
  { intros s. edestruct (prepare_generated preprocess.ndvi_prediction_feature_cols)
      as (X & y & H & _); [|exact Ht1|exact Hl1|exact Hc1|eexists; exact H].
    unfold preprocess.ndvi_prediction_feature_cols. cols_subset. }
  assert (∀ s, ∃ r, (preprocess.prepare_features_for_change_detection s
                       (generate g n_samples).1).2 = Ok r) as H2.
  { intros s. edestruct (prepare_generated preprocess.change_detection_feature_cols)
      as (X & y & H & _); [|exact Ht2|exact Hl2|exact Hc2|eexists; exact H].
    unfold preprocess.change_detection_feature_cols. cols_subset. }
  destruct (project_features_complete
              preprocess.risk_classification_feature_cols "risk_level"
              (generate g n_samples).1 t3) as (Xm & yl & Hp & Hy);
    [ | done | by rewrite Hrows | ].
  { apply Forall_forall. intros c Hc. rewrite Forall_forall in Hall.
    apply Hall. revert c Hc.
    unfold preprocess.risk_classification_feature_cols. cols_subset. }
  destruct (project_features_shape _ _ _ _ _ Hp) as (HXm & _ & _).
  destruct Xm as [|r rows].
  { exfalso. apply (f_equal length) in Hy.
    rewrite length_fmap, Hc3 in Hy. simpl in HXm. lia. }
  assert (∀ s, preprocess.scaler_features
                 (preprocess.prepare_features_for_risk_classification s
                    (generate g n_samples).1).1
               = Some {| data_min := col_fold Qminb r rows;
                         data_max := col_fold Qmaxb r rows |} ∧
               is_ok (preprocess.prepare_features_for_risk_classification s
                        (generate g n_samples).1).2 = true) as H3.
  { intros s. split; [by apply (prepare_features_scaler _ _ s _ _ _ _ Hp)|].
    destruct (prepare_features_ok _ _ s _ _ _ Hp ltac:(done)) as (Xs & HXs & _).
    unfold preprocess.prepare_features_for_risk_classification.
    rewrite HXs. done. }
  destruct (prepare_features_scaler _ _ self _ _ _ _ Hp) as [_ Hlen].
  exists {| data_min := col_fold Qminb r rows; data_max := col_fold Qmaxb r rows |}.
  split_and!.
  - destruct (model_api_loaded
                (preprocess.save_scaler
                   (preprocess.prepare_all self (generate g n_samples).1).1
                   preprocess.default_scaler_path fs)) as (_ & _ & _ & ->).
    unfold preprocess.save_scaler, preprocess.default_scaler_path.
    rewrite lookup_insert_eq. do 2 f_equal.
    unfold preprocess.prepare_all.
    destruct (H1 self) as [r1 E1].
    destruct (preprocess.prepare_features_for_ndvi_prediction self _) as [s1 r1'].
    simpl in E1. subst r1'.
    destruct (H2 s1) as [r2 E2].
    destruct (preprocess.prepare_features_for_change_detection s1 _) as [s2 r2'].
    simpl in E2. subst r2'.
    destruct (H3 s2) as [E3 O3].
    destruct (preprocess.prepare_features_for_risk_classification s2 _) as [s3 r3].
    simpl in E3, O3. destruct r3; [|done]. exact E3.
  - exact Hlen.
  - intros row Hrow. apply transform_row. unfold n_features_in.
    cbn [data_min]. by rewrite Hlen.
Qed.

End GeneratedPreparation.

(** ** The properties above on the example inputs *)

(** Rows 3 and 4 of the example frame, with its first and last rows. *)
Lemma generated_previous_and_change_witness :
  (3 < 29)%nat ∧
  ∃ first last a b : Q,
    df_col example.df "ndvi" !! 0%nat = Some (Float first) ∧
    df_col example.df "ndvi" !! 29%nat = Some (Float last) ∧
    df_col example.df "ndvi_prev" !! 0%nat = Some (Float last) ∧
    df_col example.df "ndvi_change" !! 0%nat = Some (Float (first - 0)) ∧
    df_col example.df "ndvi" !! 3%nat = Some (Float a) ∧
    df_col example.df "ndvi" !! 4%nat = Some (Float b) ∧
    df_col example.df "ndvi_prev" !! 4%nat = Some (Float a) ∧
    df_col example.df "ndvi_change" !! 4%nat = Some (Float (b - a)).
Proof.
  split; [lia|].
  apply (generated_previous_and_change example.lcg_seed example.lcg_uniform
           example.lcg_normal 0%Z 1000%nat 3%nat).
  lia.
Defined.

(** Row 1 of the example frame is a change, and of medium or high risk. *)
Lemma generated_change_is_never_low_risk_witness :
  df_col example.df "is_change" !! 1%nat = Some (Int 1) ∧
  (df_col example.df "risk_level" !! 1%nat = Some (Int 1)
   ∨ df_col example.df "risk_level" !! 1%nat = Some (Int 2)).
Proof.
  assert (df_col example.df "is_change" !! 1%nat = Some (Int 1)) as H
    by (vm_compute; reflexivity).
  split; [exact H|].
  apply (generated_change_is_never_low_risk example.lcg_seed example.lcg_uniform
           example.lcg_normal 0%Z 1000%nat 1%nat).
  exact H.
Defined.



(** The example frame without [risk_level]: the risk preparation reports
    the missing target. *)
Lemma preparation_reports_missing_target_witness :
  assoc "risk_level" example_more.df_no_risk_level = None ∧
  preprocess.prepare_features_for_risk_classification preprocess.init
    example_more.df_no_risk_level
  = (preprocess.init, Raise (KeyError "'risk_level'")).
Proof.
  assert (assoc "risk_level" example_more.df_no_risk_level = None) as H
    by (vm_compute; reflexivity).
  split; [exact H|].
  apply (preparation_reports_missing_target preprocess.init
           example_more.df_no_risk_level); [|exact H].
  unfold preprocess.risk_classification_feature_cols.
  repeat (apply Forall_cons; split; [eexists; vm_compute; reflexivity|]).
  apply Forall_nil_2.
Defined.


(** The server started on the directory without scaler.pkl. *)
Lemma missing_scaler_is_reported_after_the_model_witness :
  inference.scaler
    (inference.inference (backend_integration.model_api example_more.fs_no_scaler))
  = None
  ∧ inference.predict_ndvi
      (inference.inference (backend_integration.model_api example_more.fs_no_scaler))
      (Dict example.sample_features)
    = Raise (ValueError "Scaler not loaded").
Proof.
  assert (inference.scaler
            (inference.inference
               (backend_integration.model_api example_more.fs_no_scaler))
          = None) as H by (vm_compute; reflexivity).
  split; [exact H|].
  exact (proj1 (missing_scaler_is_reported_after_the_model _
                  (Dict example.sample_features) H)).
Defined.

(** A JSON list posted to the fully loaded server. *)
Lemma non_dict_body_is_an_attribute_error_witness :
  is_Some (inference.scaler (inference.inference example.api_full))
  ∧ is_Some (inference.models (inference.inference example.api_full)
               !! "ndvi_predictor")
  ∧ inference.predict_ndvi (inference.inference example.api_full) (NotDict "list")
    = Raise (AttributeError "'list' object has no attribute 'get'")
  ∧ backend_integration.predict_all
      {| inference.inference := inference.inference example.api_full |}
      "2024-01-01T00:00:00"
      (backend_integration.mkRequest (Ok (NotDict "list")))
    = (error_envelope "'success'", 400%Z).
Proof.
  assert (is_Some (inference.scaler (inference.inference example.api_full)))
    as Hs by (eexists; vm_compute; reflexivity).
  assert (is_Some (inference.models (inference.inference example.api_full)
                     !! "ndvi_predictor"))
    as Hm by (eexists; vm_compute; reflexivity).
  destruct (non_dict_body_is_an_attribute_error
              (inference.inference example.api_full) "list"
              "2024-01-01T00:00:00" Hs) as (Hn & _ & _ & Hall).
  split_and!; [exact Hs | exact Hm | exact (proj1 (Hn Hm)) | exact Hall].
Defined.

(** The fully loaded server on the sample features: the regressor's 1.7
    is clipped. *)
Lemma predict_ndvi_scales_then_predicts_witness :
  inference.predict_ndvi (inference.inference example.api_full)
    (Dict example.sample_features)
  = Ok (clip 1.7 0 1).
Proof.
  apply (predict_ndvi_scales_then_predicts
           (inference.inference example.api_full)
           (example.constant_model 1.7 []) example_more.scaler7_state
           example.sample_features 1.7 []).
  - vm_compute; reflexivity.
  - vm_compute; reflexivity.
  - reflexivity.
  - reflexivity.
Defined.

(** The same server: the detector's class 1 and its probability 0.9. *)
Lemma predict_change_detection_scales_then_predicts_witness :
  inference.predict_change_detection (inference.inference example.api_full)
    (Dict example.sample_features)
  = Ok {| inference.is_change := negb (Qeq_bool 1 0);
          inference.confidence := 0.9 |}.
Proof.
  apply (predict_change_detection_scales_then_predicts
           (inference.inference example.api_full)
           (example.constant_model 1 [0.1; 0.9]) example_more.scaler7_state
           example.sample_features 1 0.1 0.9 [] [] []).
  - vm_compute; reflexivity.
  - vm_compute; reflexivity.
  - reflexivity.
  - reflexivity.
  - reflexivity.
Defined.

(** The same server: the classifier's class 2 is labelled High. *)
Lemma predict_risk_level_scales_then_predicts_witness :
  inference.predict_risk_level (inference.inference example.api_full)
    (Dict example.sample_features)
  = Ok {| inference.risk_level := py_int 2;
          inference.risk_label := "High";
          inference.risk_confidence := fold_left Qmaxb [0.2; 0.7] 0.1 |}.
Proof.
  apply (predict_risk_level_scales_then_predicts
           (inference.inference example.api_full)
           (example.constant_model 2 [0.1; 0.2; 0.7]) example_more.scaler7_state
           example.sample_features 2 0.1 [] [0.2; 0.7] [] "High").
  - vm_compute; reflexivity.
  - vm_compute; reflexivity.
  - reflexivity.
  - reflexivity.
  - reflexivity.
  - vm_compute; reflexivity.
Defined.


(** The change detector of the example directory answers [0.1; 0.9]. *)
Lemma confidence_is_a_returned_probability_witness :
  inference.predict_change_detection (inference.inference example.api_full)
    (Dict example.sample_features)
  = Ok {| inference.is_change := true; inference.confidence := 0.9 |}
  ∧ 0 <= 0.9 ∧ 0.9 <= 1.
Proof.
  assert (inference.models (inference.inference example.api_full)
            !! "change_detector"
          = Some (PModel (example.constant_model 1 [0.1; 0.9]))) as Hm
    by (vm_compute; reflexivity).
  assert (inference.predict_change_detection
            (inference.inference example.api_full)
            (Dict example.sample_features)
          = Ok {| inference.is_change := true; inference.confidence := 0.9 |})
    as H by (vm_compute; reflexivity).
  split; [exact H|].
  refine (proj2 (proj1 (confidence_is_a_returned_probability _ _ _) Hm _ H) _).
  intros X P [= <-].
  apply Forall_forall. intros row Hrow.
  apply list_elem_of_fmap in Hrow as (? & -> & _).
  repeat (apply Forall_cons; split; [split; by vm_compute|]).
  apply Forall_nil_2.
Defined.

(** Without the risk classifier, NDVI and change detection succeed and
    the envelope carries the risk predictor's message. *)
Lemma process_request_reports_the_first_failure_witness :
  inference.predict_risk_level (inference.inference example.api_no_risk)
    (Dict example.sample_features)
  = Raise (ValueError "Risk classifier model not loaded")
  ∧ inference.process_request example.api_no_risk "2024-01-01T00:00:00"
      (Dict example.sample_features)
    = error_envelope "Risk classifier model not loaded".
Proof.
  assert (inference.predict_risk_level (inference.inference example.api_no_risk)
            (Dict example.sample_features)
          = Raise (ValueError "Risk classifier model not loaded")) as H
    by (vm_compute; reflexivity).
  split; [exact H|].
  refine (proj2 (proj2 (process_request_reports_the_first_failure
                          example.api_no_risk "2024-01-01T00:00:00"
                          example.sample_features _)) _ _ H).
  - vm_compute; reflexivity.
  - vm_compute; reflexivity.
Defined.

(** The answer of /predict/ndvi on the sample features. *)
Lemma status_and_success_flag_agree_witness :
  let response :=
    backend_integration.predict_ndvi example.api_full
      (backend_integration.mkRequest (Ok (Dict example.sample_features))) in
  (response.2 = 200%Z ∧ json_getitem response.1 "success" = Ok (JBool true))
  ∨ (response.2 = 400%Z ∧ ∃ msg, response.1 = error_envelope msg).
Proof.
  apply (status_and_success_flag_agree example.api_full "2024-01-01T00:00:00"
           (backend_integration.mkRequest (Ok (Dict example.sample_features)))).
  left. reflexivity.
Defined.

(** A change detected with confidence 0.9 is of high severity. *)
Lemma change_severity_threshold_witness :
  ∃ severity,
    backend_integration.predict_change example.api_full
      (backend_integration.mkRequest (Ok (Dict example.sample_features)))
    = (JObj [ ("success", JBool true);
              ("change_detected", JBool true);
              ("confidence", JFloat 0.9);
              ("severity", JStr severity) ], 200%Z) ∧
    (severity = "high" ↔ true = true ∧ 0.8 < 0.9) ∧
    (severity = "low" ↔ true = false ∨ 0.9 <= 0.8).
Proof.
  apply (change_severity_threshold example.api_full
           (Dict example.sample_features)
           {| inference.is_change := true; inference.confidence := 0.9 |}).
  vm_compute; reflexivity.
Defined.

(** A High risk assessment asks for the action "high". *)
Lemma risk_action_follows_the_label_witness :
  ∃ action,
    backend_integration.predict_risk example.api_full
      (backend_integration.mkRequest (Ok (Dict example.sample_features)))
    = (JObj [ ("success", JBool true);
              ("risk_level", JInt 2);
              ("risk_label", JStr "High");
              ("confidence", JFloat 0.7);
              ("action_required", JStr action) ], 200%Z) ∧
    (("High" = "Low" ∧ action = "none")
     ∨ ("High" = "Medium" ∧ action = "moderate")
     ∨ ("High" = "High" ∧ action = "high")).
Proof.
  apply (risk_action_follows_the_label example.api_full
           (Dict example.sample_features)
           {| inference.risk_level := 2; inference.risk_label := "High";
              inference.risk_confidence := 0.7 |}).
  vm_compute; reflexivity.
Defined.

(** The example trainer saving to an empty directory. *)
Lemma saved_models_are_the_models_loaded_witness :
  inference.models
    (inference.inference
       (backend_integration.model_api
          (train_model.save_all_models example_more.trainer ∅).1))
    !! "ndvi_predictor"
  = match train_model.models example_more.trainer !! "ndvi_predictor" with
    | Some m => Some (PModel m)
    | None => (∅ : filesystem) !! train_model.model_path "ndvi_predictor"
    end.
Proof.
  apply (saved_models_are_the_models_loaded example_more.trainer ∅
           "ndvi_predictor").
  by left.
Defined.

(** The server started on what the example trainer saved has no scaler. *)
Lemma training_alone_leaves_no_scaler_witness :
  train_model.models example_more.trainer !! "scaler" = None
  ∧ inference.scaler
      (inference.inference
         (backend_integration.model_api
            (train_model.save_all_models example_more.trainer ∅).1))
    = None.
Proof.
  assert (train_model.models example_more.trainer !! "scaler" = None) as H
    by (vm_compute; reflexivity).
  split; [exact H|].
  exact (proj1 (training_alone_leaves_no_scaler example_more.trainer
                  (Dict example.sample_features) H)).
Defined.
